(** * Corsair Vengeance K90 HID driver: device state and control protocol

    A shallow embedding of [hid-corsair-k90.c].  The driver keeps one
    [k90_drvdata] per primary interface, changes it from the four sysfs
    [store] callbacks (after a vendor control transfer) and from the HID
    [event] callback, and registers the G-keys in [input_mapping].

    Kernel services the driver calls are not part of the driver: their
    answers ([usb_control_msg]'s return value and buffer, [kzalloc],
    [sysfs_create_group]) are inputs of the model, what the driver asks
    of them is recorded in a trace, and [kstrtoint] is a parameter of the
    callbacks that parse an integer. *)

From Stdlib Require Import ZArith List String Ascii Bool Lia DecimalString.
Import ListNotations.
Open Scope Z_scope.

(** ** C integer conversions *)

Definition wrap_unsigned (bits z : Z) : Z := z mod 2 ^ bits.

Definition wrap_signed (bits z : Z) : Z :=
  let u := z mod 2 ^ bits in
  if u <? 2 ^ (bits - 1) then u else u - 2 ^ bits.

(** [__u16], [unsigned int], [int] and [ssize_t] (LP64). *)
Definition u16 : Z -> Z := wrap_unsigned 16.
Definition u32 : Z -> Z := wrap_unsigned 32.
Definition int_of : Z -> Z := wrap_signed 32.
Definition ssize_t_of : Z -> Z := wrap_signed 64.
Definition SSIZE_MAX : Z := 2 ^ 63 - 1.

(** ** Constants of the kernel headers the driver includes *)

Definition EINVAL : Z := 22.
Definition ENOMEM : Z := 12.
Definition ENOSYS : Z := 38.

(** [linux/hid.h] *)
Definition HID_USAGE : Z := 0x0000ffff.
(** [linux/input-event-codes.h] *)
Definition EV_KEY : Z := 0x01.
Definition KEY_F13 : Z := 183.
Definition KEY_F14 : Z := 184.
Definition KEY_F15 : Z := 185.
Definition KEY_F16 : Z := 186.
Definition KEY_F17 : Z := 187.
Definition KEY_F18 : Z := 188.
Definition KEY_F19 : Z := 189.
Definition KEY_F20 : Z := 190.
Definition KEY_F21 : Z := 191.
Definition KEY_F22 : Z := 192.
Definition KEY_F23 : Z := 193.
Definition KEY_F24 : Z := 194.
Definition BTN_MISC : Z := 0x100.
(** [linux/usb/ch9.h], [linux/usb.h] *)
Definition USB_DIR_OUT : Z := 0.
Definition USB_DIR_IN : Z := 0x80.
Definition USB_TYPE_VENDOR : Z := Z.shiftl 0x02 5.
Definition USB_RECIP_DEVICE : Z := 0x00.
Definition USB_CTRL_SET_TIMEOUT : Z := 5000.

(** ** Constants of the driver *)

Definition K90_GKEY_COUNT : Z := 18.

Definition K90_USAGE_SPECIAL_MIN : Z := 0xf0.
Definition K90_USAGE_SPECIAL_MAX : Z := 0xff.
Definition K90_USAGE_MACRO_RECORD_START : Z := 0xf6.
Definition K90_USAGE_MACRO_RECORD_STOP : Z := 0xf7.
Definition K90_USAGE_PROFILE : Z := 0xf1.
Definition K90_USAGE_M1 : Z := 0xf1.
Definition K90_USAGE_M2 : Z := 0xf2.
Definition K90_USAGE_M3 : Z := 0xf3.
Definition K90_USAGE_PROFILE_MAX : Z := 0xf3.
Definition K90_USAGE_META_OFF : Z := 0xf4.
Definition K90_USAGE_META_ON : Z := 0xf5.
Definition K90_USAGE_LIGHT : Z := 0xfa.
Definition K90_USAGE_LIGHT_OFF : Z := 0xfa.
Definition K90_USAGE_LIGHT_DIM : Z := 0xfb.
Definition K90_USAGE_LIGHT_MEDIUM : Z := 0xfc.
Definition K90_USAGE_LIGHT_BRIGHT : Z := 0xfd.
Definition K90_USAGE_LIGHT_MAX : Z := 0xfd.

Definition K90_REQUEST_BRIGHTNESS : Z := 49.
Definition K90_REQUEST_MACRO_MODE : Z := 2.
Definition K90_REQUEST_STATUS : Z := 4.
Definition K90_REQUEST_PROFILE : Z := 20.

Definition K90_MACRO_MODE_SW : Z := 0x0030.
Definition K90_MACRO_MODE_HW : Z := 0x0001.
Definition K90_MACRO_LED_ON : Z := 0x0020.
Definition K90_MACRO_LED_OFF : Z := 0x0040.

(** ** C strings

    A [string] is the text of a NUL-terminated buffer: reading at its end
    gives the terminator. *)

Definition uchar (c : ascii) : Z := Z.of_N (N_of_ascii c).

Definition deref (s : string) : Z :=
  match s with
  | EmptyString => 0
  | String c _ => uchar c
  end.

Definition advance (s : string) : string :=
  match s with
  | EmptyString => EmptyString
  | String _ r => r
  end.

(** [strncmp] of [lib/string.c]: the loop runs at most [count] times and
    stops at the first difference or at a terminator. *)
Fixpoint strncmp (cs ct : string) (count : nat) : Z :=
  match count with
  | O => 0
  | S n =>
      let c1 := deref cs in
      let c2 := deref ct in
      if negb (c1 =? c2) then (if c1 <? c2 then -1 else 1)
      else if c1 =? 0 then 0
      else strncmp (advance cs) (advance ct) n
  end.

Definition newline : string := String "010"%char EmptyString.

(** [snprintf (buf, PAGE_SIZE, "%d\n", n)]: the text written. *)
Definition format_d (n : Z) : string :=
  (NilZero.string_of_int (Z.to_int n) ++ newline)%string.

(** [snprintf (buf, PAGE_SIZE, "%s\n", s)]. *)
Definition format_s (s : string) : string := (s ++ newline)%string.

(** What [snprintf] returns: the length of the text (all texts the driver
    formats are far shorter than a page). *)
Definition snprintf_result (text : string) : Z := Z.of_nat (String.length text).

(** ** Device state *)

Record k90_drvdata : Type := mk_drvdata {
  brightness : Z;
  current_profile : Z;
  macro_mode : Z;
  macro_record : Z;
  meta_locked : Z
}.

Definition set_brightness (v : Z) (d : k90_drvdata) : k90_drvdata :=
  mk_drvdata v (current_profile d) (macro_mode d) (macro_record d) (meta_locked d).
Definition set_current_profile (v : Z) (d : k90_drvdata) : k90_drvdata :=
  mk_drvdata (brightness d) v (macro_mode d) (macro_record d) (meta_locked d).
Definition set_macro_mode (v : Z) (d : k90_drvdata) : k90_drvdata :=
  mk_drvdata (brightness d) (current_profile d) v (macro_record d) (meta_locked d).
Definition set_macro_record (v : Z) (d : k90_drvdata) : k90_drvdata :=
  mk_drvdata (brightness d) (current_profile d) (macro_mode d) v (meta_locked d).
Definition set_meta_locked (v : Z) (d : k90_drvdata) : k90_drvdata :=
  mk_drvdata (brightness d) (current_profile d) (macro_mode d) (macro_record d) v.

(** [kzalloc (sizeof (struct k90_drvdata), GFP_KERNEL)] *)
Definition zeroed_drvdata : k90_drvdata := mk_drvdata 0 0 0 0 0.

(** ** The driver's view of the kernel

    [w_drvdata] is the driver-data slot of the HID device ([None] is the
    NULL pointer); [w_trace] lists, oldest first, what the driver asked of
    its collaborators. *)

Inductive io_event : Type :=
| UsbControlMsg (dir_in : bool) (request requesttype value index size timeout : Z)
| Printk (format : string) (args : list Z)
| SysfsCreateGroup
| Kfree
| HidMapUsageClear (type code : Z).

Record world : Type := mk_world {
  w_drvdata : option k90_drvdata;
  w_trace : list io_event
}.

(** A callback either returns, or dereferences the NULL driver data. *)
Inductive outcome (A : Type) : Type :=
| Done (a : A) (w : world)
| Oops (w : world).
Arguments Done {A} a w.
Arguments Oops {A} w.

Definition kernel (A : Type) : Type := world -> outcome A.

Definition ret {A : Type} (a : A) : kernel A := fun w => Done a w.

Definition bind {A B : Type} (m : kernel A) (k : A -> kernel B) : kernel B :=
  fun w =>
    match m w with
    | Done a w' => k a w'
    | Oops w' => Oops w'
    end.

Notation "x <- m ;; k" := (bind m (fun x => k))
  (at level 61, m at next level, right associativity).
Notation "m ;;; k" := (bind m (fun _ => k))
  (at level 61, right associativity).

Definition emit (e : io_event) : kernel unit :=
  fun w => Done tt (mk_world (w_drvdata w) (w_trace w ++ [e])).

(** [dev_get_drvdata] / [hid_get_drvdata] and [hid_set_drvdata]. *)
Definition hid_get_drvdata : kernel (option k90_drvdata) :=
  fun w => Done (w_drvdata w) w.

Definition hid_set_drvdata (p : option k90_drvdata) : kernel unit :=
  fun w => Done tt (mk_world p (w_trace w)).

(** [drvdata->field = v]: a write through the pointer read from the slot. *)
Definition drvdata_assign (f : k90_drvdata -> k90_drvdata) : kernel unit :=
  fun w =>
    match w_drvdata w with
    | None => Oops w
    | Some d => Done tt (mk_world (Some (f d)) (w_trace w))
    end.

(** [usb_control_msg]: the request is recorded, the transport's answer
    [answer] is returned. *)
Definition usb_control_msg (answer : Z) (dir_in : bool)
    (request requesttype value index size timeout : Z) : kernel Z :=
  emit (UsbControlMsg dir_in request requesttype value index size timeout) ;;;
  ret answer.

Definition printk (format : string) (args : list Z) : kernel unit :=
  emit (Printk format args).

Definition sysfs_create_group (answer : Z) : kernel Z :=
  emit SysfsCreateGroup ;;; ret answer.

(** [kfree (drvdata)]: the state allocated at attach is released. *)
Definition kfree : kernel unit := emit Kfree.

Definition hid_map_usage_clear (type code : Z) : kernel unit :=
  emit (HidMapUsageClear type code).

Definition out_vendor_device : Z :=
  Z.lor (Z.lor USB_DIR_OUT USB_TYPE_VENDOR) USB_RECIP_DEVICE.
Definition in_vendor_device : Z :=
  Z.lor (Z.lor USB_DIR_IN USB_TYPE_VENDOR) USB_RECIP_DEVICE.

(** ** Usage classification and key table *)

Definition k90_usage_to_gkey (usage : Z) : Z :=
  if (0xd0 <=? usage) && (usage <=? 0xdf) then int_of (u32 (usage - 0xd0 + 1))
  else if (0xe8 <=? usage) && (usage <=? 0xe9) then int_of (u32 (usage - 0xe8 + 17))
  else 0.

(** The table as initialised in the source; [module_param_array_named]
    lets the administrator replace entries at load time, so the callbacks
    below take the table in force as an argument. *)
Definition k90_gkey_map : list Z :=
  [ KEY_F13; KEY_F14; KEY_F15; KEY_F16; KEY_F17; KEY_F18;
    KEY_F19; KEY_F20; KEY_F21; KEY_F22; KEY_F23; KEY_F24;
    BTN_MISC + 0; BTN_MISC + 1; BTN_MISC + 2;
    BTN_MISC + 3; BTN_MISC + 4; BTN_MISC + 5 ].

(** [usage->hid & HID_USAGE] *)
Definition usage_id (hid : Z) : Z := Z.land hid HID_USAGE.

Definition k90_input_mapping (gkey_map : list Z) (hid : Z) : kernel Z :=
  let gkey := k90_usage_to_gkey (usage_id hid) in
  if negb (gkey =? 0) then
    hid_map_usage_clear EV_KEY (nth (Z.to_nat (gkey - 1)) gkey_map 0) ;;;
    ret 1
  else if (K90_USAGE_SPECIAL_MIN <=? usage_id hid)
          && (usage_id hid <=? K90_USAGE_SPECIAL_MAX) then
    ret (-1)
  else ret 0.

(** ** Input reports *)

(** The [switch] of [k90_event]: the assignment made for a usage. *)
Definition k90_event_switch (u : Z) (d : k90_drvdata) : k90_drvdata :=
  if u =? K90_USAGE_MACRO_RECORD_START then set_macro_record 1 d
  else if u =? K90_USAGE_MACRO_RECORD_STOP then set_macro_record 0 d
  else if (u =? K90_USAGE_M1) || (u =? K90_USAGE_M2) || (u =? K90_USAGE_M3) then
    set_current_profile (int_of (u32 (u - K90_USAGE_PROFILE + 1))) d
  else if u =? K90_USAGE_META_OFF then set_meta_locked 0 d
  else if u =? K90_USAGE_META_ON then set_meta_locked 0 d
  else if (u =? K90_USAGE_LIGHT_OFF) || (u =? K90_USAGE_LIGHT_DIM)
          || (u =? K90_USAGE_LIGHT_MEDIUM) || (u =? K90_USAGE_LIGHT_BRIGHT) then
    set_brightness (int_of (u32 (u - K90_USAGE_LIGHT))) d
  else d.

Definition k90_event (hid : Z) (value : Z) : kernel Z :=
  drvdata <- hid_get_drvdata ;;
  match drvdata with
  | None => ret 0
  | Some _ =>
      drvdata_assign (k90_event_switch (usage_id hid)) ;;;
      ret 0
  end.

(** ** Attach *)

(** What the collaborators answer during one attach.  [status_data] is the
    content of [char data[8]] after the status transfer, as [char] values. *)
Record attach_env : Type := mk_attach_env {
  bInterfaceNumber : Z;
  kzalloc_ok : bool;
  status_ret : Z;
  status_data : list Z;
  sysfs_ret : Z
}.

Definition status_failed_format : string :=
  ("Failed to get K90 initial state (error %d)." ++ newline)%string.

Definition k90_init_special_functions (env : attach_env) : kernel Z :=
  if bInterfaceNumber env =? 0 then
    if negb (kzalloc_ok env) then ret (- ENOMEM)
    else
      r <- usb_control_msg (status_ret env) true K90_REQUEST_STATUS
             in_vendor_device 0 0 8 USB_CTRL_SET_TIMEOUT ;;
      drvdata <-
        (if r <? 0 then
           printk status_failed_format [r] ;;;
           ret (set_current_profile 1 (set_brightness 0 zeroed_drvdata))
         else
           ret (set_current_profile (nth 7 (status_data env) 0)
                  (set_brightness (nth 4 (status_data env) 0) zeroed_drvdata))) ;;
      hid_set_drvdata (Some drvdata) ;;;
      e <- sysfs_create_group (sysfs_ret env) ;;
      if negb (e =? 0) then
        kfree ;;;
        hid_set_drvdata None ;;;
        ret e
      else ret 0
  else
    hid_set_drvdata None ;;;
    ret 0.

(** ** Attribute callbacks that need no integer parser *)

Definition k90_show_brightness : kernel (Z * option string) :=
  drvdata <- hid_get_drvdata ;;
  match drvdata with
  | None => ret (- ENOSYS, None)
  | Some d =>
      let text := format_d (brightness d) in
      ret (snprintf_result text, Some text)
  end.

Definition k90_show_macro_mode : kernel (Z * option string) :=
  drvdata <- hid_get_drvdata ;;
  match drvdata with
  | None => ret (- ENOSYS, None)
  | Some d =>
      let text := format_s (if negb (macro_mode d =? 0) then "HW"%string else "SW"%string) in
      ret (snprintf_result text, Some text)
  end.

Definition k90_show_macro_record : kernel (Z * option string) :=
  drvdata <- hid_get_drvdata ;;
  match drvdata with
  | None => ret (- ENOSYS, None)
  | Some d =>
      let text := format_s (if negb (macro_record d =? 0) then "ON"%string else "OFF"%string) in
      ret (snprintf_result text, Some text)
  end.

Definition k90_show_current_profile : kernel (Z * option string) :=
  drvdata <- hid_get_drvdata ;;
  match drvdata with
  | None => ret (- ENOSYS, None)
  | Some d =>
      let text := format_d (current_profile d) in
      ret (snprintf_result text, Some text)
  end.

Definition k90_store_macro_mode (buf : string) (count : Z) (answer : Z) : kernel Z :=
  let send (value : Z) : kernel Z :=
    r <- usb_control_msg answer false K90_REQUEST_MACRO_MODE
           out_vendor_device value 0 0 USB_CTRL_SET_TIMEOUT ;;
    if negb (0 =? r) then ret r
    else
      drvdata_assign (set_macro_mode (if value =? K90_MACRO_MODE_HW then 1 else 0)) ;;;
      ret (ssize_t_of count) in
  if strncmp buf "SW" 2 =? 0 then send K90_MACRO_MODE_SW
  else if strncmp buf "HW" 2 =? 0 then send K90_MACRO_MODE_HW
  else ret (- EINVAL).

Definition k90_store_macro_record (buf : string) (count : Z) (answer : Z) : kernel Z :=
  let send (value : Z) : kernel Z :=
    r <- usb_control_msg answer false K90_REQUEST_MACRO_MODE
           out_vendor_device value 0 0 USB_CTRL_SET_TIMEOUT ;;
    if negb (0 =? r) then ret r
    else
      drvdata_assign (set_macro_record (if value =? K90_MACRO_LED_ON then 1 else 0)) ;;;
      ret (ssize_t_of count) in
  if strncmp buf "ON" 2 =? 0 then send K90_MACRO_LED_ON
  else if strncmp buf "OFF" 3 =? 0 then send K90_MACRO_LED_OFF
  else ret (- EINVAL).

(** The control transfer the [store] callbacks start, and the status
    transfer of attach, as they appear in the trace. *)
Definition control_out (request value : Z) : io_event :=
  UsbControlMsg false request out_vendor_device value 0 0 USB_CTRL_SET_TIMEOUT.

Definition status_query : io_event :=
  UsbControlMsg true K90_REQUEST_STATUS in_vendor_device 0 0 8 USB_CTRL_SET_TIMEOUT.

(** A text without an embedded NUL character. *)
Fixpoint no_nul (s : string) : bool :=
  match s with
  | EmptyString => true
  | String c r => negb (uchar c =? 0) && no_nul r
  end.

(** ** Attribute callbacks that parse an integer

    [kstrtoint] belongs to the kernel library.  The callbacks only test
    whether it returns zero, so it is taken as a function that gives the
    parsed [int] when it returns zero and [None] when it returns an error. *)

Section WithParser.

Variable kstrtoint : string -> Z -> option Z.

Definition k90_store_brightness (buf : string) (count : Z) (answer : Z) : kernel Z :=
  match kstrtoint buf 10 with
  | None => ret (- EINVAL)
  | Some brightness =>
      if (brightness <? 0) || (brightness >? 3) then ret (- EINVAL)
      else
        r <- usb_control_msg answer false K90_REQUEST_BRIGHTNESS
               out_vendor_device (u16 brightness) 0 0 USB_CTRL_SET_TIMEOUT ;;
        if negb (0 =? r) then ret r
        else
          drvdata_assign (set_brightness brightness) ;;;
          ret (ssize_t_of count)
  end.

Definition k90_store_current_profile (buf : string) (count : Z) (answer : Z) : kernel Z :=
  match kstrtoint buf 10 with
  | None => ret (- EINVAL)
  | Some profile =>
      if (profile <? 1) || (profile >? 3) then ret (- EINVAL)
      else
        r <- usb_control_msg answer false K90_REQUEST_PROFILE
               out_vendor_device (u16 profile) 0 0 USB_CTRL_SET_TIMEOUT ;;
        if negb (0 =? r) then ret r
        else
          drvdata_assign (set_current_profile profile) ;;;
          ret (ssize_t_of count)
  end.

(** ** Life of one attached interface

    After a successful attach the kernel calls the attribute callbacks and
    the event callback in some order; for each call that may start a
    control transfer, [answer] is what the transport would reply. *)

Inductive k90_call : Type :=
| ShowBrightness
| ShowMacroMode
| ShowMacroRecord
| ShowCurrentProfile
| StoreBrightness (buf : string) (count answer : Z)
| StoreMacroMode (buf : string) (count answer : Z)
| StoreMacroRecord (buf : string) (count answer : Z)
| StoreCurrentProfile (buf : string) (count answer : Z)
| Event (hid value : Z).

Definition run_call (c : k90_call) : kernel Z :=
  match c with
  | ShowBrightness => r <- k90_show_brightness ;; ret (fst r)
  | ShowMacroMode => r <- k90_show_macro_mode ;; ret (fst r)
  | ShowMacroRecord => r <- k90_show_macro_record ;; ret (fst r)
  | ShowCurrentProfile => r <- k90_show_current_profile ;; ret (fst r)
  | StoreBrightness buf count answer => k90_store_brightness buf count answer
  | StoreMacroMode buf count answer => k90_store_macro_mode buf count answer
  | StoreMacroRecord buf count answer => k90_store_macro_record buf count answer
  | StoreCurrentProfile buf count answer => k90_store_current_profile buf count answer
  | Event hid value => k90_event hid value
  end.

Definition unbound : world := mk_world None [].

(** Worlds an interface can be in: after an attach that returned 0 whose
    collaborators' answers satisfy [allowed_env], and after any further
    callback that returned. *)
Inductive reachable (allowed_env : attach_env -> Prop) : world -> Prop :=
| reach_attach : forall env w,
    allowed_env env ->
    k90_init_special_functions env unbound = Done 0 w ->
    reachable allowed_env w
| reach_call : forall c w r w',
    reachable allowed_env w ->
    run_call c w = Done r w' ->
    reachable allowed_env w'.

End WithParser.

(** The ranges the attribute interface documents. *)
Definition k90_in_range (d : k90_drvdata) : Prop :=
  0 <= brightness d <= 3 /\ 1 <= current_profile d <= 3.

Definition world_in_range (w : world) : Prop :=
  forall d, w_drvdata w = Some d -> k90_in_range d.

(** Attach answers under which the seeded state is in range: the status
    transfer failed, or bytes 4 and 7 of the buffer are in range. *)
Definition status_in_range (env : attach_env) : Prop :=
  status_ret env < 0 \/
  (0 <= nth 4 (status_data env) 0 <= 3 /\ 1 <= nth 7 (status_data env) 0 <= 3).

(** ** A reference integer parser

    [kstrtoint] as [lib/kstrtox.c] defines it, for base 10 (the only base
    the driver passes): an optional sign, at least one decimal digit, an
    optional final newline, nothing else, and a value that fits [int].
    The error codes are merged into [None]. *)

Definition is_digit (c : ascii) : bool :=
  (48 <=? uchar c) && (uchar c <=? 57).

(** [_parse_integer]: the value of the leading digits, how many there are,
    and the rest of the text. *)
Fixpoint _parse_integer (s : string) (acc : Z) (rv : Z) : Z * Z * string :=
  match s with
  | String c r =>
      if is_digit c then _parse_integer r (acc * 10 + (uchar c - 48)) (rv + 1)
      else (acc, rv, s)
  | EmptyString => (acc, rv, s)
  end.

Definition _kstrtoull (s : string) : option Z :=
  let '(res, rv, s1) := _parse_integer s 0 0 in
  if res >=? 2 ^ 64 then None
  else if rv =? 0 then None
  else
    let s2 := if deref s1 =? 10 then advance s1 else s1 in
    if negb (deref s2 =? 0) then None else Some res.

Definition kstrtoull (s : string) : option Z :=
  if deref s =? 43 then _kstrtoull (advance s) else _kstrtoull s.

Definition kstrtoll (s : string) : option Z :=
  if deref s =? 45 then
    match _kstrtoull (advance s) with
    | None => None
    | Some tmp =>
        if wrap_signed 64 (- tmp) >? 0 then None
        else Some (wrap_signed 64 (- tmp))
    end
  else
    match kstrtoull s with
    | None => None
    | Some tmp =>
        if wrap_signed 64 tmp <? 0 then None
        else Some (wrap_signed 64 tmp)
    end.

Definition kstrtoint_linux (s : string) (base : Z) : option Z :=
  if negb (base =? 10) then None
  else
    match kstrtoll s with
    | None => None
    | Some tmp => if negb (tmp =? int_of tmp) then None else Some (int_of tmp)
    end.

(** ** Requests the protocol allows

    A status read of 8 bytes, or a write without data whose request and
    value are one of: brightness 0..3, profile 1..3, macro mode SW or HW,
    macro LED on or off. *)
Definition wire_ok (e : io_event) : bool :=
  match e with
  | UsbControlMsg dir_in request requesttype value index size timeout =>
      (timeout =? USB_CTRL_SET_TIMEOUT) && (index =? 0) &&
      (if dir_in then
         (request =? K90_REQUEST_STATUS) && (requesttype =? 0xC0)
         && (value =? 0) && (size =? 8)
       else
         (requesttype =? 0x40) && (size =? 0) &&
         (((request =? K90_REQUEST_BRIGHTNESS) && (0 <=? value) && (value <=? 3))
          || ((request =? K90_REQUEST_PROFILE) && (1 <=? value) && (value <=? 3))
          || ((request =? K90_REQUEST_MACRO_MODE)
              && ((value =? K90_MACRO_MODE_SW) || (value =? K90_MACRO_MODE_HW)
                  || (value =? K90_MACRO_LED_ON) || (value =? K90_MACRO_LED_OFF)))))
  | _ => true
  end.

(** The three flags as the driver can leave them. *)
Definition flags_ok (d : k90_drvdata) : Prop :=
  (macro_mode d = 0 \/ macro_mode d = 1) /\
  (macro_record d = 0 \/ macro_record d = 1) /\
  meta_locked d = 0.

(** ** Probe and remove

    The HID core's side of an interface: the same driver-data slot, and a
    trace that adds the core's services to the requests of the
    special-function code. *)

(** [linux/hid.h] *)
Definition HID_CONNECT_HIDINPUT : Z := 0x01.
Definition HID_CONNECT_HIDRAW : Z := 0x04.
Definition HID_CONNECT_HIDDEV : Z := 0x08.
Definition HID_CONNECT_FF : Z := 0x20.
Definition HID_CONNECT_DEFAULT : Z :=
  Z.lor (Z.lor (Z.lor HID_CONNECT_HIDINPUT HID_CONNECT_HIDRAW) HID_CONNECT_HIDDEV)
    HID_CONNECT_FF.

Inductive hid_event : Type :=
| Special (e : io_event)
| HidParse
| HidHwStart (connect_mask : Z)
| HidHwStop
| HidErr (format : string)
| SysfsRemoveGroup.

Record hid_world : Type := mk_hid_world {
  h_drvdata : option k90_drvdata;
  h_trace : list hid_event
}.

Inductive hid_outcome (A : Type) : Type :=
| HidDone (a : A) (h : hid_world)
| HidOops (h : hid_world).
Arguments HidDone {A} a h.
Arguments HidOops {A} h.

Definition hid_kernel (A : Type) : Type := hid_world -> hid_outcome A.

Definition hid_ret {A : Type} (a : A) : hid_kernel A := fun h => HidDone a h.

Definition hid_bind {A B : Type} (m : hid_kernel A) (k : A -> hid_kernel B) : hid_kernel B :=
  fun h =>
    match m h with
    | HidDone a h' => k a h'
    | HidOops h' => HidOops h'
    end.

Notation "x <~ m ;; k" := (hid_bind m (fun x => k))
  (at level 61, m at next level, right associativity).
Notation "m ;;~ k" := (hid_bind m (fun _ => k))
  (at level 61, right associativity).

Definition hid_emit (e : hid_event) : hid_kernel unit :=
  fun h => HidDone tt (mk_hid_world (h_drvdata h) (h_trace h ++ [e])).

(** A computation of the special-function code run on the interface: it
    sees the slot, and what it appends to its trace is appended here. *)
Definition special {A : Type} (m : kernel A) : hid_kernel A :=
  fun h =>
    match m (mk_world (h_drvdata h) []) with
    | Done a w =>
        HidDone a (mk_hid_world (w_drvdata w)
                     (h_trace h ++ map Special (w_trace w)))
    | Oops w =>
        HidOops (mk_hid_world (w_drvdata w)
                   (h_trace h ++ map Special (w_trace w)))
    end.

Definition hid_parse (answer : Z) : hid_kernel Z :=
  hid_emit HidParse ;;~ hid_ret answer.

Definition hid_hw_start (answer : Z) (connect_mask : Z) : hid_kernel Z :=
  hid_emit (HidHwStart connect_mask) ;;~ hid_ret answer.

Definition hid_hw_stop : hid_kernel unit := hid_emit HidHwStop.

Definition hid_err (format : string) : hid_kernel unit := hid_emit (HidErr format).

Definition parse_failed_format : string := ("parse failed" ++ newline)%string.
Definition hw_start_failed_format : string := ("hw start failed" ++ newline)%string.
Definition init_failed_format : string :=
  ("Failed to initialize K90 special functions." ++ newline)%string.

(** What the collaborators answer during one probe. *)
Record probe_env : Type := mk_probe_env {
  hid_parse_ret : Z;
  hid_hw_start_ret : Z;
  attach : attach_env
}.

Definition k90_cleanup_special_functions : hid_kernel unit :=
  fun h =>
    match h_drvdata h with
    | Some _ => (hid_emit SysfsRemoveGroup ;;~ special kfree) h
    | None => hid_ret tt h
    end.

Definition k90_probe (env : probe_env) : hid_kernel Z :=
  r <~ hid_parse (hid_parse_ret env) ;;
  if negb (0 =? r) then
    hid_err parse_failed_format ;;~
    hid_ret r
  else
    r <~ hid_hw_start (hid_hw_start_ret env) HID_CONNECT_DEFAULT ;;
    if negb (0 =? r) then
      hid_err hw_start_failed_format ;;~
      hid_ret r
    else
      r <~ special (k90_init_special_functions (attach env)) ;;
      if negb (0 =? r) then
        special (printk init_failed_format []) ;;~
        hid_hw_stop ;;~
        hid_ret r
      else hid_ret 0.

Definition k90_remove : hid_kernel unit :=
  k90_cleanup_special_functions ;;~
  hid_hw_stop.

Definition hid_unbound : hid_world := mk_hid_world None [].

(** Counting requests in a trace. *)
Definition count_events (p : hid_event -> bool) (tr : list hid_event) : nat :=
  List.length (filter p tr).

Definition is_hw_start (e : hid_event) : bool :=
  match e with HidHwStart _ => true | _ => false end.
Definition is_hw_stop (e : hid_event) : bool :=
  match e with HidHwStop => true | _ => false end.
Definition is_group_created (e : hid_event) : bool :=
  match e with Special SysfsCreateGroup => true | _ => false end.
Definition is_group_removed (e : hid_event) : bool :=
  match e with SysfsRemoveGroup => true | _ => false end.
Definition is_kfree (e : hid_event) : bool :=
  match e with Special Kfree => true | _ => false end.
Definition is_transfer (e : hid_event) : bool :=
  match e with Special (UsbControlMsg _ _ _ _ _ _ _) => true | _ => false end.

(** ** Shapes used in statements *)

(** The world a callback leaves, whether it returned or faulted. *)
Definition world_of {A : Type} (o : outcome A) : world :=
  match o with
  | Done _ w => w
  | Oops w => w
  end.

(** What a write does once its input is accepted: the transfer
    [request]/[value] is started; a nonzero answer is returned; a zero
    answer stores [f] through the driver data and returns the count. *)
Definition write_outcome (request value : Z) (f : k90_drvdata -> k90_drvdata)
    (count answer : Z) (w : world) : outcome Z :=
  let tr := w_trace w ++ [control_out request value] in
  if answer =? 0 then
    match w_drvdata w with
    | Some d => Done (ssize_t_of count) (mk_world (Some (f d)) tr)
    | None => Oops (mk_world None tr)
    end
  else Done answer (mk_world (w_drvdata w) tr).

(** The decimal digit for a value 0..9, as a one-character text. *)
Definition digit_text (v : Z) : string :=
  String (ascii_of_N (Z.to_N (48 + v))) EmptyString.

(** The ways a callback can leave the device state. *)
Inductive field_update (d : k90_drvdata) : k90_drvdata -> Prop :=
| keep_state : field_update d d
| new_brightness : forall v, 0 <= v <= 3 -> field_update d (set_brightness v d)
| new_profile : forall v, 1 <= v <= 3 -> field_update d (set_current_profile v d)
| new_macro_mode : forall b, b = 0 \/ b = 1 -> field_update d (set_macro_mode b d)
| new_macro_record : forall b, b = 0 \/ b = 1 -> field_update d (set_macro_record b d)
| meta_unlocked : field_update d (set_meta_locked 0 d).

(** What attach returns, what it leaves in the driver-data slot (that
    held [p] before) and what it asks of its collaborators, read off the
    answers it gets. *)
Definition attach_code (env : attach_env) : Z :=
  if bInterfaceNumber env =? 0 then
    if kzalloc_ok env then sysfs_ret env else - ENOMEM
  else 0.

Definition attach_seed (env : attach_env) : k90_drvdata :=
  if status_ret env <? 0 then mk_drvdata 0 1 0 0 0
  else mk_drvdata (nth 4 (status_data env) 0) (nth 7 (status_data env) 0) 0 0 0.

Definition attach_slot (env : attach_env) (p : option k90_drvdata)
  : option k90_drvdata :=
  if bInterfaceNumber env =? 0 then
    if kzalloc_ok env then
      if sysfs_ret env =? 0 then Some (attach_seed env) else None
    else p
  else None.

Definition attach_requests (env : attach_env) : list io_event :=
  if bInterfaceNumber env =? 0 then
    if kzalloc_ok env then
      status_query ::
      (if status_ret env <? 0
       then [Printk status_failed_format [status_ret env]] else []) ++
      SysfsCreateGroup ::
      (if sysfs_ret env =? 0 then [] else [Kfree])
    else []
  else [].

(** * Properties *)

(** ** Integer conversions that change nothing in range *)

Lemma int_of_u32_small (z : Z) : 0 <= z < 2 ^ 31 -> int_of (u32 z) = z.
Proof.
  intros Hz. unfold int_of, u32, wrap_signed, wrap_unsigned.
  rewrite Z.mod_mod by lia.
  rewrite (Z.mod_small z) by lia.
  destruct (Z.ltb_spec z (2 ^ (32 - 1))) as [_ | Hge]; [reflexivity | ].
  change (2 ^ (32 - 1)) with (2 ^ 31) in Hge. lia.
Qed.

Lemma u16_small (z : Z) : 0 <= z < 2 ^ 16 -> u16 z = z.
Proof. intros Hz. unfold u16, wrap_unsigned. apply Z.mod_small. exact Hz. Qed.

Lemma ssize_t_of_small (z : Z) : 0 <= z <= SSIZE_MAX -> ssize_t_of z = z.
Proof.
  unfold SSIZE_MAX, ssize_t_of, wrap_signed. intros Hz.
  rewrite (Z.mod_small z) by lia.
  destruct (Z.ltb_spec z (2 ^ (64 - 1))) as [_ | Hge]; [reflexivity | ].
  change (2 ^ (64 - 1)) with (2 ^ 63) in Hge. lia.
Qed.

(** ** [strncmp] against a token is a prefix test *)

Lemma uchar_inj (a b : ascii) : uchar a = uchar b -> a = b.
Proof.
  unfold uchar. intros H. apply N2Z.inj in H.
  rewrite <- (ascii_N_embedding a), <- (ascii_N_embedding b), H. reflexivity.
Qed.

Lemma strncmp_token (tok : string) :
  no_nul tok = true ->
  forall buf, (strncmp buf tok (String.length tok) =? 0) = prefix tok buf.
Proof.
  induction tok as [| a tok IH]; intros Hnn buf.
  - destruct buf; reflexivity.
  - cbn [no_nul] in Hnn. apply andb_true_iff in Hnn as [Ha Htok].
    apply negb_true_iff, Z.eqb_neq in Ha.
    destruct buf as [| b buf]; cbn [String.length strncmp prefix deref advance].
    + destruct (Z.eqb_spec 0 (uchar a)) as [E | _]; [congruence | ].
      cbn [negb]. destruct (0 <? uchar a); reflexivity.
    + destruct (Z.eqb_spec (uchar b) (uchar a)) as [E | NE]; cbn [negb].
      * apply uchar_inj in E. subst b.
        destruct (Z.eqb_spec (uchar a) 0) as [E0 | _]; [congruence | ].
        destruct (ascii_dec a a) as [_ | NE]; [ | congruence].
        apply IH. exact Htok.
      * destruct (ascii_dec a b) as [E | _]; [subst; congruence | ].
        destruct (uchar b <? uchar a); reflexivity.
Qed.

Lemma strncmp_SW buf : (strncmp buf "SW" 2 =? 0) = prefix "SW" buf.
Proof. apply (strncmp_token "SW"). reflexivity. Qed.
Lemma strncmp_HW buf : (strncmp buf "HW" 2 =? 0) = prefix "HW" buf.
Proof. apply (strncmp_token "HW"). reflexivity. Qed.
Lemma strncmp_ON buf : (strncmp buf "ON" 2 =? 0) = prefix "ON" buf.
Proof. apply (strncmp_token "ON"). reflexivity. Qed.
Lemma strncmp_OFF buf : (strncmp buf "OFF" 3 =? 0) = prefix "OFF" buf.
Proof. apply (strncmp_token "OFF"). reflexivity. Qed.

(** ** Usage classification *)

Lemma usage_to_gkey_low (usage : Z) :
  0xD0 <= usage <= 0xDF -> k90_usage_to_gkey usage = usage - 0xD0 + 1.
Proof.
  intros H. unfold k90_usage_to_gkey.
  replace ((208 <=? usage) && (usage <=? 223)) with true
    by (symmetry; apply andb_true_iff; split; apply Z.leb_le; lia).
  apply int_of_u32_small. lia.
Qed.

Lemma usage_to_gkey_high (usage : Z) :
  0xE8 <= usage <= 0xE9 -> k90_usage_to_gkey usage = usage - 0xE8 + 17.
Proof.
  intros H. unfold k90_usage_to_gkey.
  replace ((208 <=? usage) && (usage <=? 223)) with false
    by (symmetry; apply andb_false_iff; right; apply Z.leb_gt; lia).
  replace ((232 <=? usage) && (usage <=? 233)) with true
    by (symmetry; apply andb_true_iff; split; apply Z.leb_le; lia).
  apply int_of_u32_small. lia.
Qed.

Lemma usage_to_gkey_other (usage : Z) :
  ~ 0xD0 <= usage <= 0xDF -> ~ 0xE8 <= usage <= 0xE9 ->
  k90_usage_to_gkey usage = 0.
Proof.
  intros H1 H2. unfold k90_usage_to_gkey.
  destruct (Z.leb_spec 208 usage), (Z.leb_spec usage 223); cbn [andb]; try lia;
    destruct (Z.leb_spec 232 usage), (Z.leb_spec usage 233); cbn [andb]; try lia;
    reflexivity.
Qed.

(** C6.  The classifier is a function of the usage code alone (it has no
    other argument and no effect): a code in [0xD0,0xDF] gives G-key index
    [code - 0xD0 + 1], a code in [0xE8,0xE9] gives [code - 0xE8 + 17], and
    every other code gives the sentinel 0. *)
Theorem C6_usage_classifier (usage : Z) :
  (0xD0 <= usage <= 0xDF -> k90_usage_to_gkey usage = usage - 0xD0 + 1) /\
  (0xE8 <= usage <= 0xE9 -> k90_usage_to_gkey usage = usage - 0xE8 + 17) /\
  (~ 0xD0 <= usage <= 0xDF -> ~ 0xE8 <= usage <= 0xE9 ->
   k90_usage_to_gkey usage = 0).
Proof.
  split; [ | split].
  - apply usage_to_gkey_low.
  - apply usage_to_gkey_high.
  - apply usage_to_gkey_other.
Qed.

Lemma C6_usage_classifier_witness :
  (0xD0 <= 0xD5 <= 0xDF /\ k90_usage_to_gkey 0xD5 = 6) /\
  (0xE8 <= 0xE9 <= 0xE9 /\ k90_usage_to_gkey 0xE9 = 18) /\
  (~ 0xD0 <= 0xF6 <= 0xDF /\ ~ 0xE8 <= 0xF6 <= 0xE9 /\ k90_usage_to_gkey 0xF6 = 0).
Proof.
  assert (H1 : 0xD0 <= 0xD5 <= 0xDF) by (split; discriminate).
  assert (H2 : 0xE8 <= 0xE9 <= 0xE9) by (split; discriminate).
  assert (H3 : ~ 0xD0 <= 0xF6 <= 0xDF) by (intros [_ H]; apply H; reflexivity).
  assert (H4 : ~ 0xE8 <= 0xF6 <= 0xE9) by (intros [_ H]; apply H; reflexivity).
  split; [ | split].
  - split; [exact H1 | ]. exact (proj1 (C6_usage_classifier 0xD5) H1).
  - split; [exact H2 | ]. exact (proj1 (proj2 (C6_usage_classifier 0xE9)) H2).
  - split; [exact H3 | ]. split; [exact H4 | ].
    exact (proj2 (proj2 (C6_usage_classifier 0xF6)) H3 H4).
Defined.

Lemma usage_to_gkey_range (usage : Z) :
  k90_usage_to_gkey usage = 0 \/ 1 <= k90_usage_to_gkey usage <= 18.
Proof.
  destruct (Z_le_dec 0xD0 usage) as [L1 | L1], (Z_le_dec usage 0xDF) as [U1 | U1];
    try (destruct (Z_le_dec 0xE8 usage) as [L2 | L2],
                  (Z_le_dec usage 0xE9) as [U2 | U2]);
    try (left; apply usage_to_gkey_other; lia);
    try (right; rewrite usage_to_gkey_low by lia; lia);
    right; rewrite usage_to_gkey_high by lia; lia.
Qed.

(** ** Input mapping *)

Lemma default_gkey_map_function_keys (i : Z) :
  1 <= i <= 12 -> nth (Z.to_nat (i - 1)) k90_gkey_map 0 = KEY_F13 + (i - 1).
Proof.
  intros H.
  assert (E : i = 1 \/ i = 2 \/ i = 3 \/ i = 4 \/ i = 5 \/ i = 6 \/
              i = 7 \/ i = 8 \/ i = 9 \/ i = 10 \/ i = 11 \/ i = 12) by lia.
  repeat (destruct E as [E | E]; [subst i; reflexivity | ]).
  subst i; reflexivity.
Qed.

Lemma default_gkey_map_buttons (i : Z) :
  13 <= i <= 18 -> nth (Z.to_nat (i - 1)) k90_gkey_map 0 = BTN_MISC + (i - 13).
Proof.
  intros H.
  assert (E : i = 13 \/ i = 14 \/ i = 15 \/ i = 16 \/ i = 17 \/ i = 18) by lia.
  repeat (destruct E as [E | E]; [subst i; reflexivity | ]).
  subst i; reflexivity.
Qed.

(** C7.  Input-mapping registration, for the key table [gkey_map] in
    force: a usage classified as a G-key (index 1..18) registers entry
    [index - 1] of the table as an [EV_KEY] code and is claimed (1); a
    usage that is no G-key and lies in [0xF0,0xFF] is suppressed (-1);
    any other usage is declined (0), both without registering anything.
    The default table holds F13..F24 for G1..G12 and [BTN_MISC]..
    [BTN_MISC + 5] for G13..G18. *)
Theorem C7_input_mapping (gkey_map : list Z) (hid : Z) (w : world) :
  (k90_usage_to_gkey (usage_id hid) <> 0 ->
   1 <= k90_usage_to_gkey (usage_id hid) <= 18 /\
   k90_input_mapping gkey_map hid w =
   Done 1 (mk_world (w_drvdata w)
             (w_trace w ++
              [HidMapUsageClear EV_KEY
                 (nth (Z.to_nat (k90_usage_to_gkey (usage_id hid) - 1)) gkey_map 0)]))) /\
  (k90_usage_to_gkey (usage_id hid) = 0 -> 0xF0 <= usage_id hid <= 0xFF ->
   k90_input_mapping gkey_map hid w = Done (-1) w) /\
  (k90_usage_to_gkey (usage_id hid) = 0 -> ~ 0xF0 <= usage_id hid <= 0xFF ->
   k90_input_mapping gkey_map hid w = Done 0 w) /\
  List.length k90_gkey_map = 18%nat /\
  (forall i, 1 <= i <= 12 ->
             nth (Z.to_nat (i - 1)) k90_gkey_map 0 = KEY_F13 + (i - 1)) /\
  (forall i, 13 <= i <= 18 ->
             nth (Z.to_nat (i - 1)) k90_gkey_map 0 = BTN_MISC + (i - 13)).
Proof.
  unfold k90_input_mapping.
  repeat split.
  - destruct (usage_to_gkey_range (usage_id hid)); [contradiction | lia].
  - destruct (usage_to_gkey_range (usage_id hid)); [contradiction | lia].
  - apply Z.eqb_neq in H. rewrite H. reflexivity.
  - intros G [Lo Hi]. rewrite G. cbn [Z.eqb negb].
    apply Z.leb_le in Lo, Hi.
    unfold K90_USAGE_SPECIAL_MIN, K90_USAGE_SPECIAL_MAX.
    rewrite Lo, Hi. reflexivity.
  - intros G Out. rewrite G. cbn [Z.eqb negb].
    unfold K90_USAGE_SPECIAL_MIN, K90_USAGE_SPECIAL_MAX.
    destruct (Z.leb_spec 0xf0 (usage_id hid)), (Z.leb_spec (usage_id hid) 0xff);
      cbn [andb]; try reflexivity.
    exfalso. apply Out. lia.
  - apply default_gkey_map_function_keys.
  - apply default_gkey_map_buttons.
Qed.

Lemma C7_input_mapping_witness :
  k90_input_mapping k90_gkey_map 0xD2 unbound =
    Done 1 (mk_world None [HidMapUsageClear EV_KEY KEY_F15]) /\
  k90_input_mapping k90_gkey_map 0xF6 unbound = Done (-1) unbound /\
  k90_input_mapping k90_gkey_map 0x04 unbound = Done 0 unbound /\
  nth 2 k90_gkey_map 0 = KEY_F15 /\
  nth 17 k90_gkey_map 0 = BTN_MISC + 5.
Proof.
  assert (G1 : k90_usage_to_gkey (usage_id 0xD2) <> 0) by discriminate.
  assert (G2 : k90_usage_to_gkey (usage_id 0xF6) = 0) by reflexivity.
  assert (G3 : k90_usage_to_gkey (usage_id 0x04) = 0) by reflexivity.
  assert (R2 : 0xF0 <= usage_id 0xF6 <= 0xFF) by (split; discriminate).
  assert (R3 : ~ 0xF0 <= usage_id 0x04 <= 0xFF)
    by (intros [H _]; apply H; reflexivity).
  assert (I3 : 1 <= 3 <= 12) by (split; discriminate).
  assert (I18 : 13 <= 18 <= 18) by (split; discriminate).
  split; [ | split; [ | split; [ | split]]].
  - exact (proj2 (proj1 (C7_input_mapping k90_gkey_map 0xD2 unbound) G1)).
  - exact (proj1 (proj2 (C7_input_mapping k90_gkey_map 0xF6 unbound)) G2 R2).
  - exact (proj1 (proj2 (proj2 (C7_input_mapping k90_gkey_map 0x04 unbound))) G3 R3).
  - exact (proj1 (proj2 (proj2 (proj2 (proj2
             (C7_input_mapping k90_gkey_map 0 unbound))))) 3 I3).
  - exact (proj2 (proj2 (proj2 (proj2 (proj2
             (C7_input_mapping k90_gkey_map 0 unbound))))) 18 I18).
Defined.

(** ** Input reports *)

Lemma event_with_state (d : k90_drvdata) (tr : list io_event) (hid value : Z) :
  k90_event hid value (mk_world (Some d) tr) =
  Done 0 (mk_world (Some (k90_event_switch (usage_id hid) d)) tr).
Proof. reflexivity. Qed.

Lemma event_without_state (tr : list io_event) (hid value : Z) :
  k90_event hid value (mk_world None tr) = Done 0 (mk_world None tr).
Proof. reflexivity. Qed.

Ltac switch_case :=
  unfold k90_event_switch,
    K90_USAGE_MACRO_RECORD_START, K90_USAGE_MACRO_RECORD_STOP,
    K90_USAGE_M1, K90_USAGE_M2, K90_USAGE_M3, K90_USAGE_PROFILE,
    K90_USAGE_META_OFF, K90_USAGE_META_ON, K90_USAGE_LIGHT,
    K90_USAGE_LIGHT_OFF, K90_USAGE_LIGHT_DIM, K90_USAGE_LIGHT_MEDIUM,
    K90_USAGE_LIGHT_BRIGHT;
  repeat match goal with
    | |- context [Z.eqb ?a ?b] => destruct (Z.eqb_spec a b); try lia
    end;
  cbn [orb].

(** C5.  On an interface that holds device state, an input report makes
    the one assignment selected by its usage code, returns 0 and leaves
    the trace as it was (nothing is sent): 0xF6 and 0xF7 set
    [macro_record] to 1 and 0, 0xF1..0xF3 set [current_profile] to
    [usage - 0xF1 + 1], 0xF4 and 0xF5 both set [meta_locked] to 0,
    0xFA..0xFD set [brightness] to [usage - 0xFA], and any other usage
    changes nothing. *)
Theorem C5_event_transitions (d : k90_drvdata) (tr : list io_event) (hid value : Z) :
  k90_event hid value (mk_world (Some d) tr) =
    Done 0 (mk_world (Some (k90_event_switch (usage_id hid) d)) tr) /\
  (usage_id hid = 0xF6 ->
   k90_event_switch (usage_id hid) d = set_macro_record 1 d) /\
  (usage_id hid = 0xF7 ->
   k90_event_switch (usage_id hid) d = set_macro_record 0 d) /\
  (0xF1 <= usage_id hid <= 0xF3 ->
   k90_event_switch (usage_id hid) d =
   set_current_profile (usage_id hid - 0xF1 + 1) d) /\
  (usage_id hid = 0xF4 \/ usage_id hid = 0xF5 ->
   k90_event_switch (usage_id hid) d = set_meta_locked 0 d) /\
  (0xFA <= usage_id hid <= 0xFD ->
   k90_event_switch (usage_id hid) d = set_brightness (usage_id hid - 0xFA) d) /\
  (usage_id hid < 0xF1 \/ 0xF7 < usage_id hid < 0xFA \/ 0xFD < usage_id hid ->
   k90_event_switch (usage_id hid) d = d).
Proof.
  split; [apply event_with_state | ].
  generalize (usage_id hid) as u. intros u.
  repeat split; intros H.
  - subst u. reflexivity.
  - subst u. reflexivity.
  - switch_case; rewrite int_of_u32_small by lia; reflexivity.
  - destruct H; subst u; reflexivity.
  - switch_case; rewrite int_of_u32_small by lia; reflexivity.
  - switch_case; reflexivity.
Qed.

Lemma C5_event_transitions_witness :
  let d := mk_drvdata 3 1 0 0 1 in
  k90_event 0xF6 1 (mk_world (Some d) []) = Done 0 (mk_world (Some (mk_drvdata 3 1 0 1 1)) []) /\
  k90_event_switch (usage_id 0xF7) d = mk_drvdata 3 1 0 0 1 /\
  k90_event_switch (usage_id 0xF3) d = mk_drvdata 3 3 0 0 1 /\
  k90_event_switch (usage_id 0xF5) d = mk_drvdata 3 1 0 0 0 /\
  k90_event_switch (usage_id 0xFB) d = mk_drvdata 1 1 0 0 1 /\
  k90_event_switch (usage_id 0x04) d = d.
Proof.
  intros d.
  assert (H6 : usage_id 0xF6 = 0xF6) by reflexivity.
  assert (H7 : usage_id 0xF7 = 0xF7) by reflexivity.
  assert (H3 : 0xF1 <= usage_id 0xF3 <= 0xF3) by (split; discriminate).
  assert (H5 : usage_id 0xF5 = 0xF4 \/ usage_id 0xF5 = 0xF5) by (right; reflexivity).
  assert (HB : 0xFA <= usage_id 0xFB <= 0xFD) by (split; discriminate).
  assert (H0 : usage_id 0x04 < 0xF1 \/ 0xF7 < usage_id 0x04 < 0xFA \/ 0xFD < usage_id 0x04)
    by (left; reflexivity).
  split; [ | split; [ | split; [ | split; [ | split]]]].
  - exact (proj1 (C5_event_transitions d [] 0xF6 1)).
  - exact (proj1 (proj2 (proj2 (C5_event_transitions d [] 0xF7 0))) H7).
  - exact (proj1 (proj2 (proj2 (proj2 (C5_event_transitions d [] 0xF3 1)))) H3).
  - exact (proj1 (proj2 (proj2 (proj2 (proj2 (C5_event_transitions d [] 0xF5 1))))) H5).
  - exact (proj1 (proj2 (proj2 (proj2 (proj2 (proj2
             (C5_event_transitions d [] 0xFB 1)))))) HB).
  - exact (proj2 (proj2 (proj2 (proj2 (proj2 (proj2
             (C5_event_transitions d [] 0x04 1)))))) H0).
Defined.

(** C9.  The assignment an input report makes depends on the usage code
    only: reports that differ in their value alone (key down, key up)
    have the same outcome, so the two reports of one press make the
    usage's assignment twice. *)
Theorem C9_event_ignores_value (w : world) (d : k90_drvdata)
    (tr : list io_event) (hid down up : Z) :
  k90_event hid down w = k90_event hid up w /\
  (k90_event hid down ;;; k90_event hid up) (mk_world (Some d) tr) =
    Done 0 (mk_world
              (Some (k90_event_switch (usage_id hid)
                       (k90_event_switch (usage_id hid) d))) tr).
Proof. split; reflexivity. Qed.

(** C10.  Without device state the event callback returns 0 and changes
    neither the driver-data slot nor the trace; with or without state it
    returns 0 and the trace is left as it was. *)
Theorem C10_event_returns_zero (hid value : Z) :
  (forall tr, k90_event hid value (mk_world None tr) = Done 0 (mk_world None tr)) /\
  (forall w, exists w',
      k90_event hid value w = Done 0 w' /\ w_trace w' = w_trace w).
Proof.
  split.
  - intros tr. apply event_without_state.
  - intros [[d | ] tr].
    + eexists. split; [apply event_with_state | reflexivity].
    + eexists. split; [apply event_without_state | reflexivity].
Qed.

(** Unfolding of the callbacks' effects. *)
Ltac run_kernel :=
  unfold usb_control_msg, sysfs_create_group, printk, kfree,
    hid_map_usage_clear;
  unfold bind, emit, ret, hid_set_drvdata, hid_get_drvdata, drvdata_assign;
  cbv beta iota; cbn [w_trace w_drvdata].

(** ** Attach *)

Lemma attach_secondary_interface (env : attach_env) (w : world) :
  bInterfaceNumber env <> 0 ->
  k90_init_special_functions env w = Done 0 (mk_world None (w_trace w)).
Proof.
  intros H. unfold k90_init_special_functions.
  apply Z.eqb_neq in H. rewrite H. reflexivity.
Qed.

Lemma attach_allocation_fails (env : attach_env) (w : world) :
  bInterfaceNumber env = 0 -> kzalloc_ok env = false ->
  k90_init_special_functions env w = Done (- ENOMEM) w.
Proof.
  intros H A. unfold k90_init_special_functions.
  rewrite H, A. reflexivity.
Qed.

Lemma attach_group_fails (env : attach_env) (w : world) :
  bInterfaceNumber env = 0 -> kzalloc_ok env = true -> sysfs_ret env <> 0 ->
  exists tr,
    k90_init_special_functions env w = Done (sysfs_ret env) (mk_world None tr).
Proof.
  intros H A G. unfold k90_init_special_functions.
  rewrite H, A. apply Z.eqb_neq in G.
  run_kernel.
  destruct (status_ret env <? 0); run_kernel; rewrite G; run_kernel;
    eexists; reflexivity.
Qed.

(** Whether attach succeeds does not depend on the status transfer. *)
Lemma attach_result_ignores_status (env : attach_env) (w : world)
    (ret' : Z) (data' : list Z) :
  exists tr tr' p p',
    k90_init_special_functions env w =
      Done (if bInterfaceNumber env =? 0
            then if kzalloc_ok env then sysfs_ret env else - ENOMEM
            else 0) (mk_world p tr) /\
    k90_init_special_functions
      (mk_attach_env (bInterfaceNumber env) (kzalloc_ok env) ret' data'
         (sysfs_ret env)) w =
      Done (if bInterfaceNumber env =? 0
            then if kzalloc_ok env then sysfs_ret env else - ENOMEM
            else 0) (mk_world p' tr').
Proof.
  unfold k90_init_special_functions.
  cbn [bInterfaceNumber kzalloc_ok status_ret status_data sysfs_ret].
  destruct w as [p0 tr0].
  destruct (bInterfaceNumber env =? 0); [ | do 4 eexists; split; reflexivity].
  destruct (kzalloc_ok env); cbn [negb];
    [ | do 4 eexists; split; reflexivity].
  run_kernel.
  destruct (status_ret env <? 0), (ret' <? 0); run_kernel;
    destruct (Z.eqb_spec (sysfs_ret env) 0) as [-> | _]; cbn [negb];
    do 4 eexists; split; reflexivity.
Qed.

(** C4.  Attach of the primary interface (interface number 0), when the
    allocation and the creation of the attribute group succeed: a status
    transfer that does not fail seeds [brightness] from byte 4 and
    [current_profile] from byte 7 of the 8-byte buffer; a failed one
    (negative result) seeds brightness 0 and profile 1 and logs a
    warning; in both cases the other fields are 0 and attach returns 0. *)
Theorem C4_attach_seeds_state (env : attach_env) (w : world) :
  bInterfaceNumber env = 0 -> kzalloc_ok env = true -> sysfs_ret env = 0 ->
  (0 <= status_ret env ->
   k90_init_special_functions env w =
   Done 0 (mk_world
             (Some (mk_drvdata (nth 4 (status_data env) 0)
                               (nth 7 (status_data env) 0) 0 0 0))
             (w_trace w ++ [status_query; SysfsCreateGroup]))) /\
  (status_ret env < 0 ->
   k90_init_special_functions env w =
   Done 0 (mk_world
             (Some (mk_drvdata 0 1 0 0 0))
             (w_trace w ++
              [status_query;
               Printk status_failed_format [status_ret env];
               SysfsCreateGroup]))).
Proof.
  intros H A G. unfold k90_init_special_functions.
  rewrite H, A, G.
  change (0 =? 0) with true. cbn [negb]. run_kernel.
  split; intros S.
  - apply Z.ltb_ge in S. rewrite S. run_kernel.
    rewrite <- app_assoc. reflexivity.
  - apply Z.ltb_lt in S. rewrite S. run_kernel.
    rewrite <- !app_assoc. reflexivity.
Qed.

Lemma C4_attach_seeds_state_witness :
  k90_init_special_functions
    (mk_attach_env 0 true 8 [0; 0; 0; 0; 2; 0; 0; 1] 0) unbound =
    Done 0 (mk_world (Some (mk_drvdata 2 1 0 0 0))
              [status_query; SysfsCreateGroup]) /\
  k90_init_special_functions
    (mk_attach_env 0 true (-110) [0; 0; 0; 0; 0; 0; 0; 0] 0) unbound =
    Done 0 (mk_world (Some (mk_drvdata 0 1 0 0 0))
              [status_query; Printk status_failed_format [-110];
               SysfsCreateGroup]).
Proof.
  split.
  - refine (proj1 (C4_attach_seeds_state
                     (mk_attach_env 0 true 8 [0; 0; 0; 0; 2; 0; 0; 1] 0) unbound
                     eq_refl eq_refl eq_refl) _).
    discriminate.
  - refine (proj2 (C4_attach_seeds_state
                     (mk_attach_env 0 true (-110) [0; 0; 0; 0; 0; 0; 0; 0] 0) unbound
                     eq_refl eq_refl eq_refl) _).
    reflexivity.
Defined.

(** ** Attribute reads *)


Lemma show_leaves_world (w : world) :
  (exists r, k90_show_brightness w = Done r w) /\
  (exists r, k90_show_macro_mode w = Done r w) /\
  (exists r, k90_show_macro_record w = Done r w) /\
  (exists r, k90_show_current_profile w = Done r w).
Proof.
  destruct w as [[d | ] tr]; repeat split; eexists; reflexivity.
Qed.

(** ** Attribute writes *)

Lemma prefix_SW_HW (buf : string) :
  prefix "SW" buf = true -> prefix "HW" buf = false.
Proof.
  destruct buf as [| c buf]; [discriminate | ].
  cbn [prefix]. destruct (ascii_dec "S" c) as [<- | _]; [ | discriminate].
  intros _. reflexivity.
Qed.

Lemma prefix_ON_OFF (buf : string) :
  prefix "ON" buf = true -> prefix "OFF" buf = false.
Proof.
  destruct buf as [| c [| c' buf]]; try discriminate.
  - cbn [prefix]. destruct (ascii_dec "O" c); intros H; discriminate H.
  - cbn [prefix]. destruct (ascii_dec "O" c) as [<- | _]; [ | discriminate].
    destruct (ascii_dec "N" c') as [<- | _]; [ | discriminate].
    intros _. reflexivity.
Qed.

Lemma range_check_passes (lo v : Z) :
  lo <= v <= 3 -> (v <? lo) || (v >? 3) = false.
Proof.
  intros H. rewrite Z.gtb_ltb. apply orb_false_iff.
  split; apply Z.ltb_ge; lia.
Qed.

Lemma range_check_fails (lo v : Z) :
  v < lo \/ 3 < v -> (v <? lo) || (v >? 3) = true.
Proof.
  intros H. rewrite Z.gtb_ltb. apply orb_true_iff.
  destruct H; [left | right]; apply Z.ltb_lt; lia.
Qed.

Lemma macro_mode_sends (d : k90_drvdata) (tr : list io_event)
    (count answer value : Z) :
  0 <= count <= SSIZE_MAX ->
  let sent := tr ++ [control_out K90_REQUEST_MACRO_MODE value] in
  let run :=
    (r <- usb_control_msg answer false K90_REQUEST_MACRO_MODE
            out_vendor_device value 0 0 USB_CTRL_SET_TIMEOUT ;;
     if negb (0 =? r) then ret r
     else
       drvdata_assign (set_macro_mode (if value =? K90_MACRO_MODE_HW then 1 else 0)) ;;;
       ret (ssize_t_of count)) (mk_world (Some d) tr) in
  (answer <> 0 -> run = Done answer (mk_world (Some d) sent)) /\
  (answer = 0 ->
   run = Done count
           (mk_world (Some (set_macro_mode (if value =? K90_MACRO_MODE_HW then 1 else 0) d))
              sent)).
Proof.
  intros Hc sent run. subst run sent. run_kernel.
  split; intros Ha.
  - destruct (Z.eqb_spec 0 answer); [congruence | reflexivity].
  - subst answer. cbn [Z.eqb negb]. run_kernel.
    rewrite ssize_t_of_small by exact Hc. reflexivity.
Qed.

Lemma macro_record_sends (d : k90_drvdata) (tr : list io_event)
    (count answer value : Z) :
  0 <= count <= SSIZE_MAX ->
  let sent := tr ++ [control_out K90_REQUEST_MACRO_MODE value] in
  let run :=
    (r <- usb_control_msg answer false K90_REQUEST_MACRO_MODE
            out_vendor_device value 0 0 USB_CTRL_SET_TIMEOUT ;;
     if negb (0 =? r) then ret r
     else
       drvdata_assign (set_macro_record (if value =? K90_MACRO_LED_ON then 1 else 0)) ;;;
       ret (ssize_t_of count)) (mk_world (Some d) tr) in
  (answer <> 0 -> run = Done answer (mk_world (Some d) sent)) /\
  (answer = 0 ->
   run = Done count
           (mk_world (Some (set_macro_record (if value =? K90_MACRO_LED_ON then 1 else 0) d))
              sent)).
Proof.
  intros Hc sent run. subst run sent. run_kernel.
  split; intros Ha.
  - destruct (Z.eqb_spec 0 answer); [congruence | reflexivity].
  - subst answer. cbn [Z.eqb negb]. run_kernel.
    rewrite ssize_t_of_small by exact Hc. reflexivity.
Qed.

Section WriteProperties.

Variable kstrtoint : string -> Z -> option Z.

(** C1.  A write whose input passes validation starts exactly one control
    transfer.  If the transfer's result is not zero, the write returns
    that result and the device state is as before.  If it is zero, the
    write returns the byte count and the state afterwards has the value
    sent in the field written (the parsed integer in [brightness] or
    [current_profile]; in [macro_mode] 1 for the token HW and 0 for SW;
    in [macro_record] 1 for ON and 0 for OFF) and every other field as
    before. *)
Theorem C1_store_commits_or_propagates
    (d : k90_drvdata) (tr : list io_event) (buf : string) (count answer : Z) :
  0 <= count <= SSIZE_MAX ->
  (forall v, kstrtoint buf 10 = Some v -> 0 <= v <= 3 ->
     let sent := tr ++ [control_out K90_REQUEST_BRIGHTNESS v] in
     (answer <> 0 ->
      k90_store_brightness kstrtoint buf count answer (mk_world (Some d) tr) =
      Done answer (mk_world (Some d) sent)) /\
     (answer = 0 ->
      k90_store_brightness kstrtoint buf count answer (mk_world (Some d) tr) =
      Done count
        (mk_world
           (Some (mk_drvdata v (current_profile d) (macro_mode d)
                    (macro_record d) (meta_locked d))) sent))) /\
  (forall v, kstrtoint buf 10 = Some v -> 1 <= v <= 3 ->
     let sent := tr ++ [control_out K90_REQUEST_PROFILE v] in
     (answer <> 0 ->
      k90_store_current_profile kstrtoint buf count answer (mk_world (Some d) tr) =
      Done answer (mk_world (Some d) sent)) /\
     (answer = 0 ->
      k90_store_current_profile kstrtoint buf count answer (mk_world (Some d) tr) =
      Done count
        (mk_world
           (Some (mk_drvdata (brightness d) v (macro_mode d)
                    (macro_record d) (meta_locked d))) sent))) /\
  (prefix "SW" buf = true \/ prefix "HW" buf = true ->
     let hw := prefix "HW" buf in
     let sent := tr ++ [control_out K90_REQUEST_MACRO_MODE
                          (if hw then K90_MACRO_MODE_HW else K90_MACRO_MODE_SW)] in
     (answer <> 0 ->
      k90_store_macro_mode buf count answer (mk_world (Some d) tr) =
      Done answer (mk_world (Some d) sent)) /\
     (answer = 0 ->
      k90_store_macro_mode buf count answer (mk_world (Some d) tr) =
      Done count
        (mk_world
           (Some (mk_drvdata (brightness d) (current_profile d)
                    (if hw then 1 else 0) (macro_record d) (meta_locked d)))
           sent))) /\
  (prefix "ON" buf = true \/ prefix "OFF" buf = true ->
     let on := prefix "ON" buf in
     let sent := tr ++ [control_out K90_REQUEST_MACRO_MODE
                          (if on then K90_MACRO_LED_ON else K90_MACRO_LED_OFF)] in
     (answer <> 0 ->
      k90_store_macro_record buf count answer (mk_world (Some d) tr) =
      Done answer (mk_world (Some d) sent)) /\
     (answer = 0 ->
      k90_store_macro_record buf count answer (mk_world (Some d) tr) =
      Done count
        (mk_world
           (Some (mk_drvdata (brightness d) (current_profile d) (macro_mode d)
                    (if on then 1 else 0) (meta_locked d)))
           sent))).
Proof.
  intros Hc. split; [ | split; [ | split]].
  - intros v Hk Hv sent. subst sent. unfold k90_store_brightness.
    rewrite Hk, (range_check_passes 0 v Hv), u16_small by lia.
    run_kernel. split; intros Ha.
    + destruct (Z.eqb_spec 0 answer); [congruence | reflexivity].
    + subst answer. rewrite (ssize_t_of_small count Hc). reflexivity.
  - intros v Hk Hv sent. subst sent. unfold k90_store_current_profile.
    rewrite Hk, (range_check_passes 1 v Hv), u16_small by lia.
    run_kernel. split; intros Ha.
    + destruct (Z.eqb_spec 0 answer); [congruence | reflexivity].
    + subst answer. rewrite (ssize_t_of_small count Hc). reflexivity.
  - intros Htok hw sent. subst sent hw. unfold k90_store_macro_mode. cbv zeta.
    rewrite strncmp_SW, strncmp_HW.
    destruct (prefix "SW" buf) eqn:SW.
    + rewrite (prefix_SW_HW buf SW).
      apply (macro_mode_sends d tr count answer K90_MACRO_MODE_SW Hc).
    + destruct Htok as [Htok | Htok]; [discriminate | ]. rewrite Htok.
      apply (macro_mode_sends d tr count answer K90_MACRO_MODE_HW Hc).
  - intros Htok on sent. subst sent on. unfold k90_store_macro_record. cbv zeta.
    rewrite strncmp_ON, strncmp_OFF.
    destruct (prefix "ON" buf) eqn:ON.
    + apply (macro_record_sends d tr count answer K90_MACRO_LED_ON Hc).
    + destruct Htok as [Htok | Htok]; [discriminate | ]. rewrite Htok.
      apply (macro_record_sends d tr count answer K90_MACRO_LED_OFF Hc).
Qed.

(** C3 (amended).  A write is rejected with [-EINVAL], with no control
    transfer started and the driver data untouched, when: the brightness
    text does not parse or parses outside [0,3]; the profile text does not
    parse or parses outside [1,3]; the macro-mode text begins with neither
    SW nor HW; the macro-record text begins with neither ON nor OFF.  The
    tokens are compared as prefixes of the text. *)
Theorem C3_invalid_write_rejected (w : world) (buf : string) (count answer : Z) :
  (kstrtoint buf 10 = None \/
   (exists v, kstrtoint buf 10 = Some v /\ (v < 0 \/ 3 < v)) ->
   k90_store_brightness kstrtoint buf count answer w = Done (- EINVAL) w) /\
  (kstrtoint buf 10 = None \/
   (exists v, kstrtoint buf 10 = Some v /\ (v < 1 \/ 3 < v)) ->
   k90_store_current_profile kstrtoint buf count answer w = Done (- EINVAL) w) /\
  (prefix "SW" buf = false -> prefix "HW" buf = false ->
   k90_store_macro_mode buf count answer w = Done (- EINVAL) w) /\
  (prefix "ON" buf = false -> prefix "OFF" buf = false ->
   k90_store_macro_record buf count answer w = Done (- EINVAL) w).
Proof.
  split; [ | split; [ | split]].
  - unfold k90_store_brightness. intros [Hn | [v [Hk Hv]]].
    + rewrite Hn. reflexivity.
    + rewrite Hk, (range_check_fails 0 v Hv). reflexivity.
  - unfold k90_store_current_profile. intros [Hn | [v [Hk Hv]]].
    + rewrite Hn. reflexivity.
    + rewrite Hk, (range_check_fails 1 v Hv). reflexivity.
  - intros SW HW. unfold k90_store_macro_mode. cbv zeta.
    rewrite strncmp_SW, strncmp_HW, SW, HW. reflexivity.
  - intros ON OFF. unfold k90_store_macro_record. cbv zeta.
    rewrite strncmp_ON, strncmp_OFF, ON, OFF. reflexivity.
Qed.

(** ** Ranges of brightness and profile *)

Lemma event_switch_in_range (u : Z) (d : k90_drvdata) :
  k90_in_range d -> k90_in_range (k90_event_switch u d).
Proof.
  unfold k90_in_range. intros [Hb Hp].
  switch_case; subst;
    cbn [brightness current_profile set_brightness set_current_profile
         set_macro_record set_meta_locked];
    try (split; assumption);
    rewrite int_of_u32_small by lia; lia.
Qed.

Lemma in_range_set_brightness (v : Z) (d : k90_drvdata) :
  (v <? 0) || (v >? 3) = false -> k90_in_range d ->
  k90_in_range (set_brightness v d).
Proof.
  rewrite Z.gtb_ltb. intros C [Hb Hp].
  apply orb_false_iff in C as [C1 C2]. apply Z.ltb_ge in C1, C2.
  split; cbn [brightness current_profile set_brightness]; lia.
Qed.

Lemma in_range_set_current_profile (v : Z) (d : k90_drvdata) :
  (v <? 1) || (v >? 3) = false -> k90_in_range d ->
  k90_in_range (set_current_profile v d).
Proof.
  rewrite Z.gtb_ltb. intros C [Hb Hp].
  apply orb_false_iff in C as [C1 C2]. apply Z.ltb_ge in C1, C2.
  split; cbn [brightness current_profile set_current_profile]; lia.
Qed.

Lemma world_in_range_some (d : k90_drvdata) (tr : list io_event) :
  k90_in_range d -> world_in_range (mk_world (Some d) tr).
Proof. intros H d' E. cbn [w_drvdata] in E. injection E as <-. exact H. Qed.

Lemma world_in_range_none (tr : list io_event) :
  world_in_range (mk_world None tr).
Proof. intros d E. discriminate E. Qed.

(** Resolve a callback's outcome equation once its tests are decided. *)
Ltac settle_outcome :=
  repeat match goal with
    | H : context [if ?b then _ else _] |- _ => destruct b eqn:?
    | H : context [match ?o with Some _ => _ | None => _ end] |- _ =>
        destruct o eqn:?
    end;
  run_kernel;
  repeat match goal with
    | H : _ |- _ => progress (cbv beta iota in H; cbn [w_trace w_drvdata] in H)
    end;
  try match goal with
    | H : Oops _ = Done _ _ |- _ => discriminate H
    | H : Done _ _ = Done _ _ |- _ => injection H as <- <-
    end;
  repeat match goal with
    | H : None = Some _ |- _ => discriminate H
    | H : Some _ = Some _ |- _ => injection H as <-
    end.

Lemma run_call_in_range (c : k90_call) (w w' : world) (r : Z) :
  world_in_range w -> run_call kstrtoint c w = Done r w' -> world_in_range w'.
Proof.
  intros Hw H.
  destruct w as [[d | ] tr].
  - assert (Hd : k90_in_range d) by (apply Hw; reflexivity).
    destruct c; cbn [run_call] in H;
      unfold k90_show_brightness, k90_show_macro_mode, k90_show_macro_record,
        k90_show_current_profile, k90_store_brightness, k90_store_macro_mode,
        k90_store_macro_record, k90_store_current_profile, k90_event in H;
      cbv zeta in H; run_kernel; unfold usb_control_msg in H;
      unfold bind, emit, ret, hid_get_drvdata, drvdata_assign in H;
      cbv beta iota in H; cbn [w_trace w_drvdata] in H;
      settle_outcome;
      apply world_in_range_some;
      first [ exact Hd
            | apply in_range_set_brightness; assumption
            | apply in_range_set_current_profile; assumption
            | apply event_switch_in_range; exact Hd
            | destruct Hd; split; assumption ].
  - destruct c; cbn [run_call] in H;
      unfold k90_show_brightness, k90_show_macro_mode, k90_show_macro_record,
        k90_show_current_profile, k90_store_brightness, k90_store_macro_mode,
        k90_store_macro_record, k90_store_current_profile, k90_event in H;
      cbv zeta in H; unfold usb_control_msg in H;
      unfold bind, emit, ret, hid_get_drvdata, drvdata_assign in H;
      cbv beta iota in H; cbn [w_trace w_drvdata] in H;
      settle_outcome;
      apply world_in_range_none.
Qed.

Lemma Done_inj {A : Type} (a b : A) (w w' : world) :
  Done a w = Done b w' -> a = b /\ w = w'.
Proof. intros H. injection H as -> ->. split; reflexivity. Qed.

Lemma attach_in_range (env : attach_env) (w : world) :
  status_in_range env ->
  k90_init_special_functions env unbound = Done 0 w -> world_in_range w.
Proof.
  intros Hs H. unfold k90_init_special_functions in H.
  unfold usb_control_msg, sysfs_create_group, printk in H.
  unfold bind, emit, ret, hid_set_drvdata, unbound in H.
  destruct (bInterfaceNumber env =? 0);
    [ | apply Done_inj in H as [_ <-]; apply world_in_range_none].
  destruct (kzalloc_ok env); cbn [negb] in H;
    [ | apply Done_inj in H as [_ <-]; apply world_in_range_none].
  cbv beta iota in H. cbn [w_trace w_drvdata] in H.
  destruct (status_ret env <? 0) eqn:S; cbv beta iota in H;
    cbn [w_trace w_drvdata] in H;
    destruct (sysfs_ret env =? 0); cbn [negb] in H; cbv beta iota in H;
    cbn [w_trace w_drvdata] in H; apply Done_inj in H as [_ <-];
    try apply world_in_range_none; apply world_in_range_some.
  - split; cbn; lia.
  - destruct Hs as [Hs | [Hb Hp]]; [apply Z.ltb_ge in S; lia | ].
    split; cbn [brightness current_profile set_brightness
                set_current_profile zeroed_drvdata]; assumption.
Qed.

(** With device state present every callback returns, and the state stays
    present. *)
Lemma run_call_returns (c : k90_call) (d : k90_drvdata) (tr : list io_event) :
  exists r d' tr',
    run_call kstrtoint c (mk_world (Some d) tr) = Done r (mk_world (Some d') tr').
Proof.
  destruct c; cbn [run_call];
    unfold k90_show_brightness, k90_show_macro_mode, k90_show_macro_record,
      k90_show_current_profile, k90_store_brightness, k90_store_macro_mode,
      k90_store_macro_record, k90_store_current_profile, k90_event;
    cbv zeta; run_kernel;
    repeat (match goal with
            | |- context [kstrtoint ?s ?b] => destruct (kstrtoint s b)
            | |- context [if ?b then _ else _] => destruct b
            end; run_kernel);
    do 3 eexists; reflexivity.
Qed.

(** C2 (amended).  On an interface attached with a failed status transfer,
    or with a status buffer whose byte 4 is within 0..3 and byte 7 within
    1..3, brightness stays within 0..3 and the profile within 1..3 after
    attach and after every attribute read, attribute write and input
    report, in any order and whatever the transport answers.  (Attach
    copies the two status bytes without checking them.) *)
Theorem C2_ranges_hold_when_status_in_range (w : world) :
  reachable kstrtoint status_in_range w -> world_in_range w.
Proof.
  induction 1 as [env w Henv Hinit | c w r w' _ IH Hcall].
  - exact (attach_in_range env w Henv Hinit).
  - exact (run_call_in_range c w w' r IH Hcall).
Qed.

End WriteProperties.

(** ** Instances with the reference parser *)

Lemma C1_store_commits_or_propagates_witness :
  let d := mk_drvdata 0 1 0 0 5 in
  let w := mk_world (Some d) [] in
  (k90_store_brightness kstrtoint_linux "2" 1 0 w =
     Done 1 (mk_world (Some (mk_drvdata 2 1 0 0 5))
               [control_out K90_REQUEST_BRIGHTNESS 2]) /\
   k90_store_brightness kstrtoint_linux "2" 1 (-110) w =
     Done (-110) (mk_world (Some (mk_drvdata 0 1 0 0 5))
                    [control_out K90_REQUEST_BRIGHTNESS 2])) /\
  (k90_store_current_profile kstrtoint_linux "3" 1 0 w =
     Done 1 (mk_world (Some (mk_drvdata 0 3 0 0 5))
               [control_out K90_REQUEST_PROFILE 3]) /\
   k90_store_current_profile kstrtoint_linux "3" 1 (-110) w =
     Done (-110) (mk_world (Some (mk_drvdata 0 1 0 0 5))
                    [control_out K90_REQUEST_PROFILE 3])) /\
  (k90_store_macro_mode "HW" 2 0 w =
     Done 2 (mk_world (Some (mk_drvdata 0 1 1 0 5))
               [control_out K90_REQUEST_MACRO_MODE K90_MACRO_MODE_HW]) /\
   k90_store_macro_mode "HW" 2 (-19) w =
     Done (-19) (mk_world (Some (mk_drvdata 0 1 0 0 5))
                   [control_out K90_REQUEST_MACRO_MODE K90_MACRO_MODE_HW]) /\
   k90_store_macro_mode "SW" 2 0
     (mk_world (Some (mk_drvdata 0 1 1 0 5)) []) =
     Done 2 (mk_world (Some (mk_drvdata 0 1 0 0 5))
               [control_out K90_REQUEST_MACRO_MODE K90_MACRO_MODE_SW])) /\
  (k90_store_macro_record "ON" 2 0 w =
     Done 2 (mk_world (Some (mk_drvdata 0 1 0 1 5))
               [control_out K90_REQUEST_MACRO_MODE K90_MACRO_LED_ON]) /\
   k90_store_macro_record "ON" 2 (-19) w =
     Done (-19) (mk_world (Some (mk_drvdata 0 1 0 0 5))
                   [control_out K90_REQUEST_MACRO_MODE K90_MACRO_LED_ON]) /\
   k90_store_macro_record "OFF" 3 0
     (mk_world (Some (mk_drvdata 0 1 0 1 5)) []) =
     Done 3 (mk_world (Some (mk_drvdata 0 1 0 0 5))
               [control_out K90_REQUEST_MACRO_MODE K90_MACRO_LED_OFF])).
Proof.
  intros d w.
  assert (C1 : 0 <= 1 <= SSIZE_MAX) by (split; discriminate).
  assert (C2 : 0 <= 2 <= SSIZE_MAX) by (split; discriminate).
  assert (C3 : 0 <= 3 <= SSIZE_MAX) by (split; discriminate).
  assert (B : 0 <= 2 <= 3) by (split; discriminate).
  assert (P : 1 <= 3 <= 3) by (split; discriminate).
  assert (N : -110 <> 0) by discriminate.
  assert (N' : -19 <> 0) by discriminate.
  split; [ | split; [ | split]].
  - split.
    + exact (proj2 (proj1 (C1_store_commits_or_propagates kstrtoint_linux
                             d [] "2" 1 0 C1) 2 eq_refl B) eq_refl).
    + exact (proj1 (proj1 (C1_store_commits_or_propagates kstrtoint_linux
                             d [] "2" 1 (-110) C1) 2 eq_refl B) N).
  - split.
    + exact (proj2 (proj1 (proj2 (C1_store_commits_or_propagates kstrtoint_linux
                                    d [] "3" 1 0 C1)) 3 eq_refl P) eq_refl).
    + exact (proj1 (proj1 (proj2 (C1_store_commits_or_propagates kstrtoint_linux
                                    d [] "3" 1 (-110) C1)) 3 eq_refl P) N).
  - split; [ | split].
    + exact (proj2 (proj1 (proj2 (proj2 (C1_store_commits_or_propagates
                                           kstrtoint_linux d [] "HW" 2 0 C2)))
                      (or_intror eq_refl)) eq_refl).
    + exact (proj1 (proj1 (proj2 (proj2 (C1_store_commits_or_propagates
                                           kstrtoint_linux d [] "HW" 2 (-19) C2)))
                      (or_intror eq_refl)) N').
    + exact (proj2 (proj1 (proj2 (proj2 (C1_store_commits_or_propagates
                                           kstrtoint_linux
                                           (mk_drvdata 0 1 1 0 5) [] "SW" 2 0 C2)))
                      (or_introl eq_refl)) eq_refl).
  - split; [ | split].
    + exact (proj2 (proj2 (proj2 (proj2 (C1_store_commits_or_propagates
                                           kstrtoint_linux d [] "ON" 2 0 C2)))
                      (or_introl eq_refl)) eq_refl).
    + exact (proj1 (proj2 (proj2 (proj2 (C1_store_commits_or_propagates
                                           kstrtoint_linux d [] "ON" 2 (-19) C2)))
                      (or_introl eq_refl)) N').
    + exact (proj2 (proj2 (proj2 (proj2 (C1_store_commits_or_propagates
                                           kstrtoint_linux
                                           (mk_drvdata 0 1 0 1 5) [] "OFF" 3 0 C3)))
                      (or_intror eq_refl)) eq_refl).
Defined.

Lemma C3_invalid_write_rejected_witness :
  let w := mk_world (Some (mk_drvdata 1 2 0 0 0)) [] in
  k90_store_brightness kstrtoint_linux "7" 1 0 w = Done (- EINVAL) w /\
  k90_store_current_profile kstrtoint_linux "two" 3 0 w = Done (- EINVAL) w /\
  k90_store_macro_mode "bogus" 5 0 w = Done (- EINVAL) w /\
  k90_store_macro_record "O" 1 0 w = Done (- EINVAL) w.
Proof.
  intros w.
  assert (B : kstrtoint_linux "7" 10 = None \/
              (exists v, kstrtoint_linux "7" 10 = Some v /\ (v < 0 \/ 3 < v))).
  { right. exists 7. split; [reflexivity | right; reflexivity]. }
  assert (P : kstrtoint_linux "two" 10 = None \/
              (exists v, kstrtoint_linux "two" 10 = Some v /\ (v < 1 \/ 3 < v))).
  { left. reflexivity. }
  split; [ | split; [ | split]].
  - exact (proj1 (C3_invalid_write_rejected kstrtoint_linux w "7" 1 0) B).
  - exact (proj1 (proj2 (C3_invalid_write_rejected kstrtoint_linux w "two" 3 0)) P).
  - exact (proj1 (proj2 (proj2 (C3_invalid_write_rejected kstrtoint_linux
                                  w "bogus" 5 0))) eq_refl eq_refl).
  - exact (proj2 (proj2 (proj2 (C3_invalid_write_rejected kstrtoint_linux
                                  w "O" 1 0))) eq_refl eq_refl).
Defined.

(** C3 as first stated asks for an exact token.  The text SWITCH is
    neither SW nor HW, yet the macro-mode write accepts it as SW: the
    transfer is started, the state is written and the byte count is
    returned. *)
Lemma C3_counterexample_token_prefix :
  let w := mk_world (Some (mk_drvdata 0 1 1 0 0)) [] in
  "SWITCH"%string <> "SW"%string /\
  "SWITCH"%string <> "HW"%string /\
  k90_store_macro_mode "SWITCH" 6 0 w =
    Done 6 (mk_world (Some (mk_drvdata 0 1 0 0 0))
              [control_out K90_REQUEST_MACRO_MODE K90_MACRO_MODE_SW]) /\
  k90_store_macro_mode "SWITCH" 6 0 w <> Done (- EINVAL) w.
Proof.
  intros w. repeat split; try discriminate.
Qed.

(** C2 as first stated covers every attach.  With a status buffer whose
    byte 4 is 5 and byte 7 is 0, attach succeeds and the state holds
    brightness 5 and profile 0. *)
Lemma C2_counterexample_unchecked_status :
  let env := mk_attach_env 0 true 8 [0; 0; 0; 0; 5; 0; 0; 0] 0 in
  let w := mk_world (Some (mk_drvdata 5 0 0 0 0)) [status_query; SysfsCreateGroup] in
  k90_init_special_functions env unbound = Done 0 w /\
  reachable kstrtoint_linux (fun _ => True) w /\
  ~ world_in_range w.
Proof.
  intros env w. split; [reflexivity | split].
  - apply (reach_attach kstrtoint_linux (fun _ => True) env w I). reflexivity.
  - intros H. destruct (H (mk_drvdata 5 0 0 0 0) eq_refl) as [[_ Hb] _].
    apply Hb. reflexivity.
Qed.

Lemma C2_ranges_hold_when_status_in_range_witness :
  let env := mk_attach_env 0 true 8 [0; 0; 0; 0; 2; 0; 0; 1] 0 in
  let w := mk_world (Some (mk_drvdata 3 2 0 0 0))
             [status_query; SysfsCreateGroup; control_out K90_REQUEST_BRIGHTNESS 3] in
  reachable kstrtoint_linux status_in_range w /\ world_in_range w.
Proof.
  intros env w.
  assert (E : status_in_range env).
  { right. split; split; discriminate. }
  assert (R : reachable kstrtoint_linux status_in_range w).
  { apply (reach_call kstrtoint_linux status_in_range (Event 0xF2 0)
             (mk_world (Some (mk_drvdata 3 1 0 0 0))
                [status_query; SysfsCreateGroup;
                 control_out K90_REQUEST_BRIGHTNESS 3]) 0 w);
      [ | reflexivity].
    apply (reach_call kstrtoint_linux status_in_range (StoreBrightness "3" 1 0)
             (mk_world (Some (mk_drvdata 2 1 0 0 0))
                [status_query; SysfsCreateGroup]) 1);
      [ | reflexivity].
    apply (reach_attach kstrtoint_linux status_in_range env); [exact E | reflexivity]. }
  split; [exact R | ].
  exact (C2_ranges_hold_when_status_in_range kstrtoint_linux w R).
Defined.


(** ** Scenarios *)

Example record_keys_toggle_the_flag :
  (k90_event 0xF6 1 ;;; k90_show_macro_record)
    (mk_world (Some (mk_drvdata 0 1 0 0 0)) []) =
    Done (3, Some ("ON" ++ newline)%string)
      (mk_world (Some (mk_drvdata 0 1 0 1 0)) []) /\
  (k90_event 0xF6 1 ;;; k90_event 0xF7 1 ;;; k90_show_macro_record)
    (mk_world (Some (mk_drvdata 0 1 0 0 0)) []) =
    Done (4, Some ("OFF" ++ newline)%string)
      (mk_world (Some (mk_drvdata 0 1 0 0 0)) []).
Proof. split; reflexivity. Qed.

Example brightness_written_then_read :
  (k90_store_brightness kstrtoint_linux ("3" ++ newline) 2 0 ;;;
   k90_show_brightness)
    (mk_world (Some (mk_drvdata 0 1 0 0 0)) []) =
    Done (2, Some ("3" ++ newline)%string)
      (mk_world (Some (mk_drvdata 3 1 0 0 0))
         [control_out K90_REQUEST_BRIGHTNESS 3]).
Proof. reflexivity. Qed.

Example macro_mode_written_then_read :
  (k90_store_macro_mode ("HW" ++ newline) 3 0 ;;; k90_show_macro_mode)
    (mk_world (Some (mk_drvdata 0 1 0 0 0)) []) =
    Done (3, Some ("HW" ++ newline)%string)
      (mk_world (Some (mk_drvdata 0 1 1 0 0))
         [control_out K90_REQUEST_MACRO_MODE K90_MACRO_MODE_HW]).
Proof. reflexivity. Qed.

Example failed_profile_write_keeps_profile :
  (k90_store_current_profile kstrtoint_linux "2" 1 (-110) ;;;
   k90_show_current_profile)
    (mk_world (Some (mk_drvdata 0 3 0 0 0)) []) =
    Done (2, Some ("3" ++ newline)%string)
      (mk_world (Some (mk_drvdata 0 3 0 0 0))
         [control_out K90_REQUEST_PROFILE 2]).
Proof. reflexivity. Qed.

(** * Further properties of the driver *)

(** ** What each write does, in any world *)

Lemma answer_test (answer : Z) : negb (0 =? answer) = negb (answer =? 0).
Proof. rewrite Z.eqb_sym. reflexivity. Qed.

Lemma send_macro_mode (value count answer : Z) (w : world) :
  (r <- usb_control_msg answer false K90_REQUEST_MACRO_MODE
          out_vendor_device value 0 0 USB_CTRL_SET_TIMEOUT ;;
   if negb (0 =? r) then ret r
   else
     drvdata_assign (set_macro_mode (if value =? K90_MACRO_MODE_HW then 1 else 0)) ;;;
     ret (ssize_t_of count)) w =
  write_outcome K90_REQUEST_MACRO_MODE value
    (set_macro_mode (if value =? K90_MACRO_MODE_HW then 1 else 0)) count answer w.
Proof.
  unfold write_outcome. run_kernel. rewrite answer_test.
  destruct (answer =? 0); cbn [negb]; run_kernel; [ | reflexivity].
  destruct (w_drvdata w); reflexivity.
Qed.

Lemma send_macro_record (value count answer : Z) (w : world) :
  (r <- usb_control_msg answer false K90_REQUEST_MACRO_MODE
          out_vendor_device value 0 0 USB_CTRL_SET_TIMEOUT ;;
   if negb (0 =? r) then ret r
   else
     drvdata_assign (set_macro_record (if value =? K90_MACRO_LED_ON then 1 else 0)) ;;;
     ret (ssize_t_of count)) w =
  write_outcome K90_REQUEST_MACRO_MODE value
    (set_macro_record (if value =? K90_MACRO_LED_ON then 1 else 0)) count answer w.
Proof.
  unfold write_outcome. run_kernel. rewrite answer_test.
  destruct (answer =? 0); cbn [negb]; run_kernel; [ | reflexivity].
  destruct (w_drvdata w); reflexivity.
Qed.

Lemma store_macro_mode_cases (buf : string) (count answer : Z) (w : world) :
  k90_store_macro_mode buf count answer w =
  if prefix "SW" buf then
    write_outcome K90_REQUEST_MACRO_MODE K90_MACRO_MODE_SW (set_macro_mode 0)
      count answer w
  else if prefix "HW" buf then
    write_outcome K90_REQUEST_MACRO_MODE K90_MACRO_MODE_HW (set_macro_mode 1)
      count answer w
  else Done (- EINVAL) w.
Proof.
  unfold k90_store_macro_mode. cbv zeta. rewrite strncmp_SW, strncmp_HW.
  destruct (prefix "SW" buf); [apply send_macro_mode | ].
  destruct (prefix "HW" buf); [apply send_macro_mode | reflexivity].
Qed.

Lemma store_macro_record_cases (buf : string) (count answer : Z) (w : world) :
  k90_store_macro_record buf count answer w =
  if prefix "ON" buf then
    write_outcome K90_REQUEST_MACRO_MODE K90_MACRO_LED_ON (set_macro_record 1)
      count answer w
  else if prefix "OFF" buf then
    write_outcome K90_REQUEST_MACRO_MODE K90_MACRO_LED_OFF (set_macro_record 0)
      count answer w
  else Done (- EINVAL) w.
Proof.
  unfold k90_store_macro_record. cbv zeta. rewrite strncmp_ON, strncmp_OFF.
  destruct (prefix "ON" buf); [apply send_macro_record | ].
  destruct (prefix "OFF" buf); [apply send_macro_record | reflexivity].
Qed.

Lemma range_check_decides (lo v : Z) :
  (v <? lo) || (v >? 3) = negb ((lo <=? v) && (v <=? 3)).
Proof.
  rewrite Z.gtb_ltb.
  destruct (Z.ltb_spec v lo), (Z.ltb_spec 3 v), (Z.leb_spec lo v),
    (Z.leb_spec v 3); try reflexivity; lia.
Qed.

Section MoreWriteProperties.

Variable kstrtoint : string -> Z -> option Z.

Lemma store_brightness_cases (buf : string) (count answer : Z) (w : world) :
  k90_store_brightness kstrtoint buf count answer w =
  match kstrtoint buf 10 with
  | Some v =>
      if (0 <=? v) && (v <=? 3) then
        write_outcome K90_REQUEST_BRIGHTNESS v (set_brightness v) count answer w
      else Done (- EINVAL) w
  | None => Done (- EINVAL) w
  end.
Proof.
  unfold k90_store_brightness.
  destruct (kstrtoint buf 10) as [v | ]; [ | reflexivity].
  rewrite range_check_decides.
  destruct ((0 <=? v) && (v <=? 3)) eqn:R; cbn [negb]; [ | reflexivity].
  apply andb_true_iff in R as [R1 R2]. apply Z.leb_le in R1, R2.
  rewrite u16_small by lia.
  unfold write_outcome. run_kernel. rewrite answer_test.
  destruct (answer =? 0); cbn [negb]; run_kernel; [ | reflexivity].
  destruct (w_drvdata w); reflexivity.
Qed.

Lemma store_current_profile_cases (buf : string) (count answer : Z) (w : world) :
  k90_store_current_profile kstrtoint buf count answer w =
  match kstrtoint buf 10 with
  | Some v =>
      if (1 <=? v) && (v <=? 3) then
        write_outcome K90_REQUEST_PROFILE v (set_current_profile v) count answer w
      else Done (- EINVAL) w
  | None => Done (- EINVAL) w
  end.
Proof.
  unfold k90_store_current_profile.
  destruct (kstrtoint buf 10) as [v | ]; [ | reflexivity].
  rewrite range_check_decides.
  destruct ((1 <=? v) && (v <=? 3)) eqn:R; cbn [negb]; [ | reflexivity].
  apply andb_true_iff in R as [R1 R2]. apply Z.leb_le in R1, R2.
  rewrite u16_small by lia.
  unfold write_outcome. run_kernel. rewrite answer_test.
  destruct (answer =? 0); cbn [negb]; run_kernel; [ | reflexivity].
  destruct (w_drvdata w); reflexivity.
Qed.

(** ** One field at a time *)

Lemma write_outcome_state (request value : Z) (f : k90_drvdata -> k90_drvdata)
    (count answer r : Z) (w w' : world) (d' : k90_drvdata) :
  write_outcome request value f count answer w = Done r w' ->
  w_drvdata w' = Some d' ->
  exists d, w_drvdata w = Some d /\ (d' = d \/ d' = f d).
Proof.
  unfold write_outcome. intros H E.
  destruct (answer =? 0).
  - destruct (w_drvdata w) as [d | ]; [ | discriminate H].
    apply Done_inj in H as [_ <-]. cbn [w_drvdata] in E.
    injection E as <-. exists d. split; [reflexivity | right; reflexivity].
  - apply Done_inj in H as [_ <-]. cbn [w_drvdata] in E.
    exists d'. split; [exact E | left; reflexivity].
Qed.

Lemma event_switch_shape (u : Z) (d : k90_drvdata) :
  k90_event_switch u d = d \/
  (exists v, 0 <= v <= 3 /\ k90_event_switch u d = set_brightness v d) \/
  (exists v, 1 <= v <= 3 /\ k90_event_switch u d = set_current_profile v d) \/
  (exists b, (b = 0 \/ b = 1) /\ k90_event_switch u d = set_macro_record b d) \/
  k90_event_switch u d = set_meta_locked 0 d.
Proof.
  switch_case; subst.
  all: try (left; reflexivity).
  all: try (right; right; right; right; reflexivity).
  all: try (right; right; right; left; exists 1; split;
            [right; reflexivity | reflexivity]).
  all: try (right; right; right; left; exists 0; split;
            [left; reflexivity | reflexivity]).
  all: try (right; right; left; eexists; split; [ | reflexivity];
            rewrite int_of_u32_small by lia; lia).
  all: right; left; eexists; split; [ | reflexivity];
    rewrite int_of_u32_small by lia; lia.
Qed.

Lemma run_call_field_update (c : k90_call) (w w' : world) (r : Z) :
  run_call kstrtoint c w = Done r w' ->
  match w_drvdata w with
  | Some d => exists d', w_drvdata w' = Some d' /\ field_update d d'
  | None => w_drvdata w' = None
  end.
Proof.
  intros H.
  assert (K : forall d', w_drvdata w' = Some d' ->
                         exists d, w_drvdata w = Some d /\ field_update d d').
  { intros d' E. destruct c; cbn [run_call] in H.
    1-4: (destruct w as [[d | ] tr];
          [ exists d; split; [reflexivity | ];
            apply Done_inj in H as [_ <-]; cbn [w_drvdata] in E;
            injection E as <-; constructor
          | apply Done_inj in H as [_ <-]; discriminate E ]).
    - rewrite store_brightness_cases in H.
      destruct (kstrtoint buf 10) as [v | ];
        [ destruct ((0 <=? v) && (v <=? 3)) eqn:R | ].
      + apply andb_true_iff in R as [R1 R2]. apply Z.leb_le in R1, R2.
        destruct (write_outcome_state _ _ _ _ _ _ _ _ _ H E) as [d [Ed [-> | ->]]];
          exists d; (split; [exact Ed | ]); constructor; lia.
      + apply Done_inj in H as [_ <-]. exists d'. split; [exact E | constructor].
      + apply Done_inj in H as [_ <-]. exists d'. split; [exact E | constructor].
    - rewrite store_macro_mode_cases in H.
      destruct (prefix "SW" buf); [ | destruct (prefix "HW" buf)].
      + destruct (write_outcome_state _ _ _ _ _ _ _ _ _ H E) as [d [Ed [-> | ->]]];
          exists d; (split; [exact Ed | ]); constructor; left; reflexivity.
      + destruct (write_outcome_state _ _ _ _ _ _ _ _ _ H E) as [d [Ed [-> | ->]]];
          exists d; (split; [exact Ed | ]); constructor; right; reflexivity.
      + apply Done_inj in H as [_ <-]. exists d'. split; [exact E | constructor].
    - rewrite store_macro_record_cases in H.
      destruct (prefix "ON" buf); [ | destruct (prefix "OFF" buf)].
      + destruct (write_outcome_state _ _ _ _ _ _ _ _ _ H E) as [d [Ed [-> | ->]]];
          exists d; (split; [exact Ed | ]); constructor; right; reflexivity.
      + destruct (write_outcome_state _ _ _ _ _ _ _ _ _ H E) as [d [Ed [-> | ->]]];
          exists d; (split; [exact Ed | ]); constructor; left; reflexivity.
      + apply Done_inj in H as [_ <-]. exists d'. split; [exact E | constructor].
    - rewrite store_current_profile_cases in H.
      destruct (kstrtoint buf 10) as [v | ];
        [ destruct ((1 <=? v) && (v <=? 3)) eqn:R | ].
      + apply andb_true_iff in R as [R1 R2]. apply Z.leb_le in R1, R2.
        destruct (write_outcome_state _ _ _ _ _ _ _ _ _ H E) as [d [Ed [-> | ->]]];
          exists d; (split; [exact Ed | ]); constructor; lia.
      + apply Done_inj in H as [_ <-]. exists d'. split; [exact E | constructor].
      + apply Done_inj in H as [_ <-]. exists d'. split; [exact E | constructor].
    - destruct w as [[d | ] tr].
      + rewrite event_with_state in H. apply Done_inj in H as [_ <-].
        cbn [w_drvdata] in E. injection E as <-.
        exists d. split; [reflexivity | ].
        destruct (event_switch_shape (usage_id hid) d)
          as [-> | [[v [Hv ->]] | [[v [Hv ->]] | [[b [Hb ->]] | ->]]]];
          constructor; assumption.
      + rewrite event_without_state in H. apply Done_inj in H as [_ <-].
        discriminate E. }
  destruct (w_drvdata w) as [d | ] eqn:Ew.
  - destruct (run_call_returns kstrtoint c d (w_trace w)) as [r0 [d0 [tr0 R]]].
    replace (mk_world (Some d) (w_trace w)) with w in R
      by (destruct w; cbn in Ew |- *; subst; reflexivity).
    rewrite R in H. apply Done_inj in H as [_ <-].
    exists d0. split; [reflexivity | ].
    destruct (K d0 eq_refl) as [d1 [E1 F]].
    injection E1 as <-. exact F.
  - destruct (w_drvdata w') as [d' | ] eqn:E'; [ | reflexivity].
    destruct (K d' eq_refl) as [d [Ed _]]. discriminate Ed.
Qed.

(** X1.  A callback that returns on an interface with state leaves state
    there, and the new state is the old one with at most one field
    overwritten: brightness by a value in 0..3, the profile by a value in
    1..3, one of the two macro flags by 0 or 1, or [meta_locked] by 0.
    On an interface without state a callback that returns leaves it
    without state. *)
Theorem callback_updates_one_field (c : k90_call) (w w' : world) (r : Z) :
  run_call kstrtoint c w = Done r w' ->
  match w_drvdata w with
  | Some d => exists d', w_drvdata w' = Some d' /\ field_update d d'
  | None => w_drvdata w' = None
  end.
Proof. exact (run_call_field_update c w w' r). Qed.

End MoreWriteProperties.

Lemma callback_updates_one_field_witness :
  exists d',
    w_drvdata (mk_world (Some (mk_drvdata 3 1 0 0 0))
                 [control_out K90_REQUEST_BRIGHTNESS 3]) = Some d' /\
    field_update (mk_drvdata 0 1 0 0 0) d'.
Proof.
  exact (callback_updates_one_field kstrtoint_linux (StoreBrightness "3" 1 0)
           (mk_world (Some (mk_drvdata 0 1 0 0 0)) [])
           (mk_world (Some (mk_drvdata 3 1 0 0 0))
              [control_out K90_REQUEST_BRIGHTNESS 3]) 1 eq_refl).
Defined.

Section Sessions.

Variable kstrtoint : string -> Z -> option Z.

(** ** Each write touches its own field *)

Lemma write_outcome_same_or_set (request value : Z)
    (f : k90_drvdata -> k90_drvdata) (count answer r : Z)
    (d d' : k90_drvdata) (tr tr' : list io_event) :
  write_outcome request value f count answer (mk_world (Some d) tr) =
    Done r (mk_world (Some d') tr') ->
  d' = d \/ d' = f d.
Proof.
  intros H.
  destruct (write_outcome_state _ _ _ _ _ _ _ _ d' H eq_refl) as [d0 [E0 K]].
  cbn [w_drvdata] in E0. injection E0 as <-. exact K.
Qed.

(** X2.  A write never alters a field other than its own, whatever the
    text, the byte count and the transport's answer: after a brightness
    write the profile and the three flags are as before, and likewise
    for the profile, macro-mode and macro-record writes. *)
Theorem store_keeps_other_fields (buf : string) (count answer r : Z)
    (d d' : k90_drvdata) (tr tr' : list io_event) :
  (k90_store_brightness kstrtoint buf count answer (mk_world (Some d) tr) =
     Done r (mk_world (Some d') tr') ->
   d' = set_brightness (brightness d') d) /\
  (k90_store_current_profile kstrtoint buf count answer (mk_world (Some d) tr) =
     Done r (mk_world (Some d') tr') ->
   d' = set_current_profile (current_profile d') d) /\
  (k90_store_macro_mode buf count answer (mk_world (Some d) tr) =
     Done r (mk_world (Some d') tr') ->
   d' = set_macro_mode (macro_mode d') d) /\
  (k90_store_macro_record buf count answer (mk_world (Some d) tr) =
     Done r (mk_world (Some d') tr') ->
   d' = set_macro_record (macro_record d') d).
Proof.
  assert (Same : forall e : k90_drvdata,
             e = set_brightness (brightness e) e /\
             e = set_current_profile (current_profile e) e /\
             e = set_macro_mode (macro_mode e) e /\
             e = set_macro_record (macro_record e) e)
    by (intros []; repeat split).
  assert (Kept : forall w0 : world,
             Done (- EINVAL) w0 = Done r (mk_world (Some d') tr') ->
             w0 = mk_world (Some d) tr -> d' = d).
  { intros w0 H E. apply Done_inj in H as [_ H]. subst w0. congruence. }
  split; [ | split; [ | split]]; intros H.
  - rewrite store_brightness_cases in H.
    destruct (kstrtoint buf 10) as [v | ];
      [ destruct ((0 <=? v) && (v <=? 3)) | ];
      try (rewrite (Kept _ H eq_refl); apply Same).
    destruct (write_outcome_same_or_set _ _ _ _ _ _ _ _ _ _ H) as [-> | ->];
      [apply Same | reflexivity].
  - rewrite store_current_profile_cases in H.
    destruct (kstrtoint buf 10) as [v | ];
      [ destruct ((1 <=? v) && (v <=? 3)) | ];
      try (rewrite (Kept _ H eq_refl); apply Same).
    destruct (write_outcome_same_or_set _ _ _ _ _ _ _ _ _ _ H) as [-> | ->];
      [apply Same | reflexivity].
  - rewrite store_macro_mode_cases in H.
    destruct (prefix "SW" buf); [ | destruct (prefix "HW" buf)];
      try (rewrite (Kept _ H eq_refl); apply Same);
      destruct (write_outcome_same_or_set _ _ _ _ _ _ _ _ _ _ H) as [-> | ->];
      solve [apply Same | reflexivity].
  - rewrite store_macro_record_cases in H.
    destruct (prefix "ON" buf); [ | destruct (prefix "OFF" buf)];
      try (rewrite (Kept _ H eq_refl); apply Same);
      destruct (write_outcome_same_or_set _ _ _ _ _ _ _ _ _ _ H) as [-> | ->];
      solve [apply Same | reflexivity].
Qed.

(** ** When a write dereferences the NULL driver data *)

Lemma write_outcome_faults (request value : Z) (f : k90_drvdata -> k90_drvdata)
    (count answer : Z) (w : world) :
  (exists w', write_outcome request value f count answer w = Oops w') <->
  w_drvdata w = None /\ answer = 0.
Proof.
  unfold write_outcome. split.
  - intros [w' H]. destruct (Z.eqb_spec answer 0) as [E | _]; [ | discriminate H].
    destruct (w_drvdata w); [discriminate H | split; [reflexivity | exact E]].
  - intros [N ->]. rewrite N. cbn [Z.eqb]. eexists. reflexivity.
Qed.

Lemma rejected_never_faults (w w' : world) :
  Done (- EINVAL) w = Oops w' -> False.
Proof. discriminate. Qed.

(** X3.  A write faults on the NULL driver data exactly when the
    interface has no state, the text passes validation and the control
    transfer answers 0; in every other case it returns. *)
Theorem store_faults_exactly_without_state (buf : string) (count answer : Z)
    (w : world) :
  ((exists w', k90_store_brightness kstrtoint buf count answer w = Oops w') <->
   w_drvdata w = None /\ answer = 0 /\
   exists v, kstrtoint buf 10 = Some v /\ 0 <= v <= 3) /\
  ((exists w', k90_store_current_profile kstrtoint buf count answer w = Oops w') <->
   w_drvdata w = None /\ answer = 0 /\
   exists v, kstrtoint buf 10 = Some v /\ 1 <= v <= 3) /\
  ((exists w', k90_store_macro_mode buf count answer w = Oops w') <->
   w_drvdata w = None /\ answer = 0 /\
   (prefix "SW" buf = true \/ prefix "HW" buf = true)) /\
  ((exists w', k90_store_macro_record buf count answer w = Oops w') <->
   w_drvdata w = None /\ answer = 0 /\
   (prefix "ON" buf = true \/ prefix "OFF" buf = true)).
Proof.
  split; [ | split; [ | split]].
  - rewrite store_brightness_cases.
    destruct (kstrtoint buf 10) as [v | ].
    + destruct ((0 <=? v) && (v <=? 3)) eqn:R.
      * rewrite write_outcome_faults.
        apply andb_true_iff in R as [R1 R2]. apply Z.leb_le in R1, R2.
        split; [intros [N A]; repeat split; try assumption; exists v; split;
                [reflexivity | lia]
               | intros [N [A _]]; split; assumption].
      * split; [intros [w' H]; destruct (rejected_never_faults _ _ H) | ].
        intros [_ [_ [v' [E Hv]]]]. injection E as <-.
        apply andb_false_iff in R as [R | R]; apply Z.leb_gt in R; lia.
    + split; [intros [w' H]; destruct (rejected_never_faults _ _ H) | ].
      intros [_ [_ [v' [E _]]]]. discriminate E.
  - rewrite store_current_profile_cases.
    destruct (kstrtoint buf 10) as [v | ].
    + destruct ((1 <=? v) && (v <=? 3)) eqn:R.
      * rewrite write_outcome_faults.
        apply andb_true_iff in R as [R1 R2]. apply Z.leb_le in R1, R2.
        split; [intros [N A]; repeat split; try assumption; exists v; split;
                [reflexivity | lia]
               | intros [N [A _]]; split; assumption].
      * split; [intros [w' H]; destruct (rejected_never_faults _ _ H) | ].
        intros [_ [_ [v' [E Hv]]]]. injection E as <-.
        apply andb_false_iff in R as [R | R]; apply Z.leb_gt in R; lia.
    + split; [intros [w' H]; destruct (rejected_never_faults _ _ H) | ].
      intros [_ [_ [v' [E _]]]]. discriminate E.
  - rewrite store_macro_mode_cases.
    destruct (prefix "SW" buf); [ | destruct (prefix "HW" buf)];
      try rewrite write_outcome_faults.
    + split; [intros [N A]; repeat split; try assumption; left; reflexivity
             | intros [N [A _]]; split; assumption].
    + split; [intros [N A]; repeat split; try assumption; right; reflexivity
             | intros [N [A _]]; split; assumption].
    + split; [intros [w' H]; destruct (rejected_never_faults _ _ H) | ].
      intros [_ [_ [H | H]]]; discriminate H.
  - rewrite store_macro_record_cases.
    destruct (prefix "ON" buf); [ | destruct (prefix "OFF" buf)];
      try rewrite write_outcome_faults.
    + split; [intros [N A]; repeat split; try assumption; left; reflexivity
             | intros [N [A _]]; split; assumption].
    + split; [intros [N A]; repeat split; try assumption; right; reflexivity
             | intros [N [A _]]; split; assumption].
    + split; [intros [w' H]; destruct (rejected_never_faults _ _ H) | ].
      intros [_ [_ [H | H]]]; discriminate H.
Qed.

End Sessions.

Lemma store_keeps_other_fields_witness :
  mk_drvdata 3 1 0 0 0 =
  set_brightness (brightness (mk_drvdata 3 1 0 0 0)) (mk_drvdata 0 1 0 0 0) /\
  mk_drvdata 0 1 0 1 0 =
  set_macro_record (macro_record (mk_drvdata 0 1 0 1 0)) (mk_drvdata 0 1 0 0 0).
Proof.
  split.
  - exact (proj1 (store_keeps_other_fields kstrtoint_linux "3" 1 0 1
                    (mk_drvdata 0 1 0 0 0) (mk_drvdata 3 1 0 0 0) []
                    [control_out K90_REQUEST_BRIGHTNESS 3]) eq_refl).
  - exact (proj2 (proj2 (proj2
             (store_keeps_other_fields kstrtoint_linux "ON" 2 0 2
                (mk_drvdata 0 1 0 0 0) (mk_drvdata 0 1 0 1 0) []
                [control_out K90_REQUEST_MACRO_MODE K90_MACRO_LED_ON]))) eq_refl).
Defined.

Lemma store_faults_exactly_without_state_witness :
  (exists w', k90_store_brightness kstrtoint_linux "2" 1 0 unbound = Oops w') /\
  (exists w', k90_store_macro_mode "HW" 2 0 unbound = Oops w').
Proof.
  split.
  - apply (proj2 (proj1 (store_faults_exactly_without_state kstrtoint_linux
                           "2" 1 0 unbound))).
    split; [reflexivity | split; [reflexivity | ]].
    exists 2. split; [reflexivity | split; discriminate].
  - apply (proj2 (proj1 (proj2 (proj2 (store_faults_exactly_without_state
                                         kstrtoint_linux "HW" 2 0 unbound))))).
    split; [reflexivity | split; [reflexivity | right; reflexivity]].
Defined.

Section Lifetimes.

Variable kstrtoint : string -> Z -> option Z.

(** ** Every transfer the driver starts is one the protocol allows *)

Lemma forallb_snoc {A : Type} (p : A -> bool) (l : list A) (a : A) :
  forallb p l = true -> p a = true -> forallb p (l ++ [a]) = true.
Proof.
  intros Hl Ha. rewrite forallb_app, Hl. cbn [forallb andb].
  rewrite Ha. reflexivity.
Qed.

Lemma wire_ok_brightness (v : Z) :
  (0 <=? v) && (v <=? 3) = true ->
  wire_ok (control_out K90_REQUEST_BRIGHTNESS v) = true.
Proof.
  intros R. apply andb_true_iff in R as [R1 R2]. apply Z.leb_le in R1, R2.
  assert (E : v = 0 \/ v = 1 \/ v = 2 \/ v = 3) by lia.
  destruct E as [-> | [-> | [-> | ->]]]; reflexivity.
Qed.

Lemma wire_ok_profile (v : Z) :
  (1 <=? v) && (v <=? 3) = true ->
  wire_ok (control_out K90_REQUEST_PROFILE v) = true.
Proof.
  intros R. apply andb_true_iff in R as [R1 R2]. apply Z.leb_le in R1, R2.
  assert (E : v = 1 \/ v = 2 \/ v = 3) by lia.
  destruct E as [-> | [-> | ->]]; reflexivity.
Qed.

Lemma write_outcome_wire (request value : Z) (f : k90_drvdata -> k90_drvdata)
    (count answer : Z) (w : world) :
  wire_ok (control_out request value) = true ->
  forallb wire_ok (w_trace w) = true ->
  forallb wire_ok
    (w_trace (world_of (write_outcome request value f count answer w))) = true.
Proof.
  intros He Hw. unfold write_outcome.
  destruct (answer =? 0); [destruct (w_drvdata w) | ];
    cbn [world_of w_trace]; apply forallb_snoc; assumption.
Qed.

Lemma run_call_wire (c : k90_call) (w : world) :
  forallb wire_ok (w_trace w) = true ->
  forallb wire_ok (w_trace (world_of (run_call kstrtoint c w))) = true.
Proof.
  intros Hw. destruct c; cbn [run_call].
  1-4: (destruct w as [[d | ] tr]; exact Hw).
  - rewrite store_brightness_cases.
    destruct (kstrtoint buf 10) as [v | ];
      [destruct ((0 <=? v) && (v <=? 3)) eqn:R | ]; try exact Hw.
    apply write_outcome_wire; [apply wire_ok_brightness, R | exact Hw].
  - rewrite store_macro_mode_cases.
    destruct (prefix "SW" buf); [ | destruct (prefix "HW" buf)]; try exact Hw;
      (apply write_outcome_wire; [reflexivity | exact Hw]).
  - rewrite store_macro_record_cases.
    destruct (prefix "ON" buf); [ | destruct (prefix "OFF" buf)]; try exact Hw;
      (apply write_outcome_wire; [reflexivity | exact Hw]).
  - rewrite store_current_profile_cases.
    destruct (kstrtoint buf 10) as [v | ];
      [destruct ((1 <=? v) && (v <=? 3)) eqn:R | ]; try exact Hw.
    apply write_outcome_wire; [apply wire_ok_profile, R | exact Hw].
  - destruct w as [[d | ] tr]; exact Hw.
Qed.

Lemma attach_wire (env : attach_env) :
  forallb wire_ok
    (w_trace (world_of (k90_init_special_functions env unbound))) = true.
Proof.
  unfold k90_init_special_functions, unbound.
  destruct (bInterfaceNumber env =? 0); [ | reflexivity].
  destruct (kzalloc_ok env); [ | reflexivity].
  cbn [negb]. run_kernel.
  destruct (status_ret env <? 0); run_kernel;
    destruct (sysfs_ret env =? 0); reflexivity.
Qed.

(** X4.  In the whole life of an interface, whatever the attach answers,
    the texts written and the transport's replies, every control transfer
    the driver has started is one the protocol allows: the 8-byte status
    read, or a data-less vendor write of brightness 0..3, profile 1..3,
    macro mode SW/HW or macro LED on/off.  This includes the transfer of
    a write that goes on to fault. *)
Theorem only_protocol_transfers (w : world) :
  reachable kstrtoint (fun _ => True) w ->
  forallb wire_ok (w_trace w) = true /\
  forall c, forallb wire_ok
              (w_trace (world_of (run_call kstrtoint c w))) = true.
Proof.
  intros R.
  assert (Hw : forallb wire_ok (w_trace w) = true).
  { induction R as [env w _ Hinit | c w r w' _ IH Hcall].
    - pose proof (attach_wire env) as A. rewrite Hinit in A. exact A.
    - pose proof (run_call_wire c w IH) as A. rewrite Hcall in A. exact A. }
  split; [exact Hw | ].
  intros c. apply run_call_wire, Hw.
Qed.

(** ** Flags *)

Lemma field_update_flags (d d' : k90_drvdata) :
  field_update d d' -> flags_ok d -> flags_ok d'.
Proof.
  unfold flags_ok. intros U [Hm [Hr Hl]].
  destruct U; cbn [macro_mode macro_record meta_locked set_brightness
                   set_current_profile set_macro_mode set_macro_record
                   set_meta_locked];
    repeat split; assumption || reflexivity.
Qed.

Lemma attach_flags (env : attach_env) (w : world) (r : Z) (d : k90_drvdata) :
  k90_init_special_functions env unbound = Done r w ->
  w_drvdata w = Some d ->
  macro_mode d = 0 /\ macro_record d = 0 /\ meta_locked d = 0.
Proof.
  unfold k90_init_special_functions, unbound. intros H E.
  destruct (bInterfaceNumber env =? 0);
    [ | apply Done_inj in H as [_ <-]; discriminate E].
  destruct (kzalloc_ok env);
    [ | apply Done_inj in H as [_ <-]; discriminate E].
  cbn [negb] in H. revert H. run_kernel.
  destruct (status_ret env <? 0); run_kernel;
    destruct (sysfs_ret env =? 0); cbn [negb]; run_kernel;
    intros H; apply Done_inj in H as [_ <-]; cbn [w_drvdata] in E;
    try discriminate E; injection E as <-; repeat split.
Qed.

(** X5.  In the whole life of an interface, whatever the status reply:
    [macro_mode] and [macro_record] are 0 or 1 and [meta_locked] is 0.
    No callback ever sets [meta_locked] to anything but 0, and attach
    starts both macro flags at 0 without asking the device. *)
Theorem flags_stay_boolean_and_meta_unlocked (w : world) (d : k90_drvdata) :
  reachable kstrtoint (fun _ => True) w ->
  w_drvdata w = Some d -> flags_ok d.
Proof.
  intros R. revert d.
  induction R as [env w _ Hinit | c w r w' _ IH Hcall]; intros d E.
  - destruct (attach_flags env w 0 d Hinit E) as [Hm [Hr Hl]].
    repeat split; try (left; assumption); assumption.
  - pose proof (run_call_field_update kstrtoint c w w' r Hcall) as U.
    destruct (w_drvdata w) as [d0 | ]; [ | congruence].
    destruct U as [d' [E' U]]. rewrite E in E'. injection E' as <-.
    exact (field_update_flags d0 d U (IH d0 eq_refl)).
Qed.

(** ** The primary interface keeps its state *)

Lemma attach_primary_state (env : attach_env) (w : world) :
  bInterfaceNumber env = 0 ->
  k90_init_special_functions env unbound = Done 0 w ->
  exists d, w_drvdata w = Some d.
Proof.
  unfold k90_init_special_functions, unbound. intros -> H.
  cbn [Z.eqb] in H.
  destruct (kzalloc_ok env); cbn [negb] in H;
    [ | apply Done_inj in H as [H _]; discriminate H].
  revert H. run_kernel.
  destruct (status_ret env <? 0); run_kernel;
    destruct (Z.eqb_spec (sysfs_ret env) 0) as [G | G]; cbn [negb]; run_kernel;
    intros H; apply Done_inj in H as [H <-]; try congruence;
    eexists; reflexivity.
Qed.

(** X6.  On an interface attached as interface 0, state is present after
    attach and after every callback, and no callback can fault: each
    attribute read, attribute write and input report returns. *)
Theorem primary_interface_never_faults (w : world) :
  reachable kstrtoint (fun env => bInterfaceNumber env = 0) w ->
  (exists d, w_drvdata w = Some d) /\
  forall c, exists r w', run_call kstrtoint c w = Done r w'.
Proof.
  intros R.
  assert (S : exists d, w_drvdata w = Some d).
  { induction R as [env w Henv Hinit | c w r w' _ IH Hcall].
    - exact (attach_primary_state env w Henv Hinit).
    - destruct IH as [d E].
      pose proof (run_call_field_update kstrtoint c w w' r Hcall) as U.
      rewrite E in U. destruct U as [d' [E' _]]. exists d'. exact E'. }
  split; [exact S | ].
  intros c. destruct S as [d E]. destruct w as [p tr]. cbn [w_drvdata] in E.
  subst p. destruct (run_call_returns kstrtoint c d tr) as [r [d' [tr' H]]].
  exists r, (mk_world (Some d') tr'). exact H.
Qed.

End Lifetimes.

(** A short life of an interface: attach with status bytes 2 and 1, a
    brightness write, an input report. *)
Lemma sample_session (allowed : attach_env -> Prop) :
  allowed (mk_attach_env 0 true 8 [0; 0; 0; 0; 2; 0; 0; 1] 0) ->
  reachable kstrtoint_linux allowed
    (mk_world (Some (mk_drvdata 3 2 0 0 0))
       [status_query; SysfsCreateGroup; control_out K90_REQUEST_BRIGHTNESS 3]).
Proof.
  intros A.
  apply (reach_call kstrtoint_linux allowed (Event 0xF2 0)
           (mk_world (Some (mk_drvdata 3 1 0 0 0))
              [status_query; SysfsCreateGroup;
               control_out K90_REQUEST_BRIGHTNESS 3]) 0);
    [ | reflexivity].
  apply (reach_call kstrtoint_linux allowed (StoreBrightness "3" 1 0)
           (mk_world (Some (mk_drvdata 2 1 0 0 0))
              [status_query; SysfsCreateGroup]) 1);
    [ | reflexivity].
  apply (reach_attach kstrtoint_linux allowed
           (mk_attach_env 0 true 8 [0; 0; 0; 0; 2; 0; 0; 1] 0));
    [exact A | reflexivity].
Qed.

Lemma only_protocol_transfers_witness :
  forallb wire_ok
    [status_query; SysfsCreateGroup; control_out K90_REQUEST_BRIGHTNESS 3] = true.
Proof.
  exact (proj1 (only_protocol_transfers kstrtoint_linux _
                  (sample_session (fun _ => True) I))).
Defined.

Lemma flags_stay_boolean_and_meta_unlocked_witness :
  flags_ok (mk_drvdata 3 2 0 0 0).
Proof.
  exact (flags_stay_boolean_and_meta_unlocked kstrtoint_linux _ _
           (sample_session (fun _ => True) I) eq_refl).
Defined.

Lemma primary_interface_never_faults_witness :
  exists r w',
    run_call kstrtoint_linux (StoreMacroMode "HW" 2 0)
      (mk_world (Some (mk_drvdata 3 2 0 0 0))
         [status_query; SysfsCreateGroup; control_out K90_REQUEST_BRIGHTNESS 3]) =
    Done r w'.
Proof.
  exact (proj2 (primary_interface_never_faults kstrtoint_linux _
                  (sample_session (fun env => bInterfaceNumber env = 0) eq_refl))
           (StoreMacroMode "HW" 2 0)).
Defined.

(** ** Input reports, composed *)

Lemma event_switch_idempotent (u : Z) (d : k90_drvdata) :
  k90_event_switch u (k90_event_switch u d) = k90_event_switch u d.
Proof.
  unfold k90_event_switch.
  repeat match goal with
    | |- context [if ?b then _ else _] => destruct b
    end; reflexivity.
Qed.

(** X7.  Handling the same input report twice leaves the interface as
    handling it once does (so the key-up report that follows a key-down
    changes nothing further), and no input report changes [macro_mode]. *)
Theorem event_idempotent_and_keeps_macro_mode (hid value value' : Z) (w : world) :
  (k90_event hid value ;;; k90_event hid value') w = k90_event hid value w /\
  forall d, w_drvdata w = Some d ->
            exists d', w_drvdata (world_of (k90_event hid value w)) = Some d' /\
                       macro_mode d' = macro_mode d.
Proof.
  destruct w as [[d | ] tr].
  - split.
    + unfold bind. rewrite !event_with_state, event_switch_idempotent. reflexivity.
    + intros d0 E. cbn [w_drvdata] in E. injection E as <-.
      rewrite event_with_state. cbn [world_of w_drvdata]. eexists.
      split; [reflexivity | ].
      unfold k90_event_switch.
      repeat match goal with
        | |- context [if ?b then _ else _] => destruct b
        end; reflexivity.
  - split; [reflexivity | intros d E; discriminate E].
Qed.

Lemma event_idempotent_and_keeps_macro_mode_witness :
  exists d', w_drvdata (world_of (k90_event 0xF2 1
                                    (mk_world (Some (mk_drvdata 0 1 1 0 0)) []))) =
             Some d' /\ macro_mode d' = macro_mode (mk_drvdata 0 1 1 0 0).
Proof.
  exact (proj2 (event_idempotent_and_keeps_macro_mode 0xF2 1 0
                  (mk_world (Some (mk_drvdata 0 1 1 0 0)) []))
           (mk_drvdata 0 1 1 0 0) eq_refl).
Defined.

(** ** Reading back what was written *)

Lemma prefix_OFF_ON (buf : string) :
  prefix "OFF" buf = true -> prefix "ON" buf = false.
Proof.
  intros H. destruct (prefix "ON" buf) eqn:E; [ | reflexivity].
  rewrite (prefix_ON_OFF buf E) in H. discriminate H.
Qed.

Section ReadWrite.

Variable kstrtoint : string -> Z -> option Z.

(** X8.  A brightness or profile write that succeeds is read back as the
    value written: the following read returns the one decimal digit of
    the value and a newline (2 bytes), and starts no transfer of its
    own. *)
Theorem integer_written_is_read_back (d : k90_drvdata) (tr : list io_event)
    (buf : string) (count v : Z) :
  kstrtoint buf 10 = Some v ->
  (0 <= v <= 3 ->
   (k90_store_brightness kstrtoint buf count 0 ;;; k90_show_brightness)
     (mk_world (Some d) tr) =
   Done (2, Some (digit_text v ++ newline)%string)
     (mk_world (Some (set_brightness v d))
        (tr ++ [control_out K90_REQUEST_BRIGHTNESS v]))) /\
  (1 <= v <= 3 ->
   (k90_store_current_profile kstrtoint buf count 0 ;;; k90_show_current_profile)
     (mk_world (Some d) tr) =
   Done (2, Some (digit_text v ++ newline)%string)
     (mk_world (Some (set_current_profile v d))
        (tr ++ [control_out K90_REQUEST_PROFILE v]))).
Proof.
  intros Hk. split; intros Hv.
  - unfold bind. rewrite store_brightness_cases, Hk.
    assert (E : v = 0 \/ v = 1 \/ v = 2 \/ v = 3) by lia.
    destruct E as [-> | [-> | [-> | ->]]]; reflexivity.
  - unfold bind. rewrite store_current_profile_cases, Hk.
    assert (E : v = 1 \/ v = 2 \/ v = 3) by lia.
    destruct E as [-> | [-> | ->]]; reflexivity.
Qed.

(** X10.  The device's own reports and the host's writes agree: after the
    input report for illumination level [v] the device state is what a
    successful brightness write of [v] leaves; the same holds for the
    report of profile key M[v] and a profile write of [v], and for the
    record-start and record-stop reports and macro-record writes of ON
    and OFF. *)
Theorem report_agrees_with_write (d : k90_drvdata) (tr tr' : list io_event)
    (buf : string) (count hid value : Z) :
  (forall v, kstrtoint buf 10 = Some v -> 0 <= v <= 3 ->
     usage_id hid = K90_USAGE_LIGHT + v ->
     w_drvdata (world_of (k90_store_brightness kstrtoint buf count 0
                            (mk_world (Some d) tr))) =
     w_drvdata (world_of (k90_event hid value (mk_world (Some d) tr')))) /\
  (forall v, kstrtoint buf 10 = Some v -> 1 <= v <= 3 ->
     usage_id hid = K90_USAGE_PROFILE + (v - 1) ->
     w_drvdata (world_of (k90_store_current_profile kstrtoint buf count 0
                            (mk_world (Some d) tr))) =
     w_drvdata (world_of (k90_event hid value (mk_world (Some d) tr')))) /\
  (prefix "ON" buf = true -> usage_id hid = K90_USAGE_MACRO_RECORD_START ->
     w_drvdata (world_of (k90_store_macro_record buf count 0
                            (mk_world (Some d) tr))) =
     w_drvdata (world_of (k90_event hid value (mk_world (Some d) tr')))) /\
  (prefix "OFF" buf = true -> usage_id hid = K90_USAGE_MACRO_RECORD_STOP ->
     w_drvdata (world_of (k90_store_macro_record buf count 0
                            (mk_world (Some d) tr))) =
     w_drvdata (world_of (k90_event hid value (mk_world (Some d) tr')))).
Proof.
  split; [ | split; [ | split]].
  - intros v Hk Hv Hu.
    rewrite store_brightness_cases, Hk, event_with_state, Hu.
    assert (E : v = 0 \/ v = 1 \/ v = 2 \/ v = 3) by lia.
    destruct E as [-> | [-> | [-> | ->]]]; reflexivity.
  - intros v Hk Hv Hu.
    rewrite store_current_profile_cases, Hk, event_with_state, Hu.
    assert (E : v = 1 \/ v = 2 \/ v = 3) by lia.
    destruct E as [-> | [-> | ->]]; reflexivity.
  - intros H Hu. rewrite store_macro_record_cases, H, event_with_state, Hu.
    reflexivity.
  - intros H Hu.
    rewrite store_macro_record_cases, H, (prefix_OFF_ON buf H),
      event_with_state, Hu.
    reflexivity.
Qed.

End ReadWrite.

Lemma integer_written_is_read_back_witness :
  (k90_store_brightness kstrtoint_linux "3" 1 0 ;;; k90_show_brightness)
    (mk_world (Some (mk_drvdata 0 1 0 0 0)) []) =
  Done (2, Some (digit_text 3 ++ newline)%string)
    (mk_world (Some (mk_drvdata 3 1 0 0 0))
       [control_out K90_REQUEST_BRIGHTNESS 3]) /\
  (k90_store_current_profile kstrtoint_linux "3" 1 0 ;;; k90_show_current_profile)
    (mk_world (Some (mk_drvdata 0 1 0 0 0)) []) =
  Done (2, Some (digit_text 3 ++ newline)%string)
    (mk_world (Some (mk_drvdata 0 3 0 0 0))
       [control_out K90_REQUEST_PROFILE 3]).
Proof.
  assert (B : 0 <= 3 <= 3) by (split; discriminate).
  assert (P : 1 <= 3 <= 3) by (split; discriminate).
  split.
  - exact (proj1 (integer_written_is_read_back kstrtoint_linux
                    (mk_drvdata 0 1 0 0 0) [] "3" 1 3 eq_refl) B).
  - exact (proj2 (integer_written_is_read_back kstrtoint_linux
                    (mk_drvdata 0 1 0 0 0) [] "3" 1 3 eq_refl) P).
Defined.

Lemma report_agrees_with_write_witness :
  Some (mk_drvdata 2 1 0 0 0) =
    w_drvdata (world_of (k90_event 0x000700FC 1
                           (mk_world (Some (mk_drvdata 0 1 0 0 0)) []))) /\
  Some (mk_drvdata 0 1 0 1 0) =
    w_drvdata (world_of (k90_event 0x000700F6 1
                           (mk_world (Some (mk_drvdata 0 1 0 0 0)) []))).
Proof.
  assert (B : 0 <= 2 <= 3) by (split; discriminate).
  split.
  - exact (proj1 (report_agrees_with_write kstrtoint_linux
                    (mk_drvdata 0 1 0 0 0) [] [] "2" 1 0x000700FC 1)
             2 eq_refl B eq_refl).
  - exact (proj1 (proj2 (proj2 (report_agrees_with_write kstrtoint_linux
                                  (mk_drvdata 0 1 0 0 0) [] [] "ON" 2
                                  0x000700F6 1)))
             eq_refl eq_refl).
Defined.



(** ** Input mapping and the key table *)

Lemma gkey_nonzero_ranges (u : Z) :
  k90_usage_to_gkey u <> 0 -> 0xD0 <= u <= 0xDF \/ 0xE8 <= u <= 0xE9.
Proof.
  intros H.
  destruct (Z_le_dec 0xD0 u), (Z_le_dec u 0xDF),
    (Z_le_dec 0xE8 u), (Z_le_dec u 0xE9); try lia;
    exfalso; apply H; apply usage_to_gkey_other; lia.
Qed.

Lemma gkey_of_special_is_zero (u : Z) :
  0xF0 <= u <= 0xFF -> k90_usage_to_gkey u = 0.
Proof. intros H. apply usage_to_gkey_other; lia. Qed.

Lemma default_code (i : Z) :
  1 <= i <= 18 ->
  nth (Z.to_nat (i - 1)) k90_gkey_map 0 =
  if i <=? 12 then 183 + (i - 1) else 256 + (i - 13).
Proof.
  intros H. destruct (Z.leb_spec i 12).
  - rewrite default_gkey_map_function_keys by lia. reflexivity.
  - rewrite default_gkey_map_buttons by lia. reflexivity.
Qed.

(** X11.  The classifier maps the 18 G-key usages one-to-one onto the
    table indexes 1..18, and with the default table no two G-keys are
    registered with the same key code. *)
Theorem gkeys_one_to_one (u1 u2 : Z) :
  (k90_usage_to_gkey u1 <> 0 -> k90_usage_to_gkey u1 = k90_usage_to_gkey u2 ->
   u1 = u2) /\
  (forall i, 1 <= i <= 18 -> exists u, k90_usage_to_gkey u = i) /\
  (k90_usage_to_gkey u1 <> 0 -> k90_usage_to_gkey u2 <> 0 -> u1 <> u2 ->
   nth (Z.to_nat (k90_usage_to_gkey u1 - 1)) k90_gkey_map 0 <>
   nth (Z.to_nat (k90_usage_to_gkey u2 - 1)) k90_gkey_map 0).
Proof.
  assert (Inj : forall a b, k90_usage_to_gkey a <> 0 ->
                            k90_usage_to_gkey a = k90_usage_to_gkey b -> a = b).
  { intros a b Ha E.
    assert (Hb : k90_usage_to_gkey b <> 0) by congruence.
    destruct (gkey_nonzero_ranges a Ha) as [Ra | Ra],
      (gkey_nonzero_ranges b Hb) as [Rb | Rb];
      try rewrite (usage_to_gkey_low a Ra) in E;
      try rewrite (usage_to_gkey_high a Ra) in E;
      try rewrite (usage_to_gkey_low b Rb) in E;
      try rewrite (usage_to_gkey_high b Rb) in E; lia. }
  split; [apply Inj | split].
  - intros i Hi. destruct (Z_le_dec i 16).
    + exists (0xD0 + (i - 1)). rewrite usage_to_gkey_low by lia. lia.
    + exists (0xE8 + (i - 17)). rewrite usage_to_gkey_high by lia. lia.
  - intros H1 H2 Ne E. apply Ne.
    destruct (usage_to_gkey_range u1) as [Z1 | R1]; [contradiction | ].
    destruct (usage_to_gkey_range u2) as [Z2 | R2]; [contradiction | ].
    rewrite (default_code _ R1), (default_code _ R2) in E.
    apply (Inj u1 u2 H1).
    destruct (Z.leb_spec (k90_usage_to_gkey u1) 12),
      (Z.leb_spec (k90_usage_to_gkey u2) 12); lia.
Qed.

Lemma gkeys_one_to_one_witness :
  nth (Z.to_nat (k90_usage_to_gkey 0xDF - 1)) k90_gkey_map 0 <>
  nth (Z.to_nat (k90_usage_to_gkey 0xE8 - 1)) k90_gkey_map 0.
Proof.
  assert (A : k90_usage_to_gkey 0xDF <> 0) by discriminate.
  assert (B : k90_usage_to_gkey 0xE8 <> 0) by discriminate.
  assert (N : 0xDF <> 0xE8) by discriminate.
  exact (proj2 (proj2 (gkeys_one_to_one 0xDF 0xE8)) A B N).
Defined.

(** X12.  Input mapping decided by the usage code: a usage in
    [0xD0,0xDF] or [0xE8,0xE9] registers one code, which is an entry of
    the 18-entry key table (the lookup stays inside the table), and
    returns 1; a usage in [0xF0,0xFF] returns -1 and any other usage 0,
    both registering nothing.  The driver data is never touched. *)
Theorem input_mapping_by_usage (gkey_map : list Z) (hid : Z) (w : world) :
  List.length gkey_map = 18%nat ->
  (0xD0 <= usage_id hid <= 0xDF \/ 0xE8 <= usage_id hid <= 0xE9 ->
   exists code,
     In code gkey_map /\
     k90_input_mapping gkey_map hid w =
     Done 1 (mk_world (w_drvdata w)
               (w_trace w ++ [HidMapUsageClear EV_KEY code]))) /\
  (0xF0 <= usage_id hid <= 0xFF ->
   k90_input_mapping gkey_map hid w = Done (-1) w) /\
  (~ 0xD0 <= usage_id hid <= 0xDF -> ~ 0xE8 <= usage_id hid <= 0xE9 ->
   ~ 0xF0 <= usage_id hid <= 0xFF ->
   k90_input_mapping gkey_map hid w = Done 0 w).
Proof.
  intros Hlen. unfold k90_input_mapping.
  unfold K90_USAGE_SPECIAL_MIN, K90_USAGE_SPECIAL_MAX.
  split; [ | split].
  - intros R.
    assert (G : 1 <= k90_usage_to_gkey (usage_id hid) <= 18).
    { destruct R as [R | R];
        [rewrite (usage_to_gkey_low _ R) | rewrite (usage_to_gkey_high _ R)]; lia. }
    exists (nth (Z.to_nat (k90_usage_to_gkey (usage_id hid) - 1)) gkey_map 0).
    split.
    + apply nth_In. rewrite Hlen. lia.
    + destruct (Z.eqb_spec (k90_usage_to_gkey (usage_id hid)) 0); [lia | ].
      reflexivity.
  - intros R. rewrite (gkey_of_special_is_zero _ R). cbn [Z.eqb negb].
    destruct (Z.leb_spec 0xf0 (usage_id hid)), (Z.leb_spec (usage_id hid) 0xff);
      try lia; reflexivity.
  - intros N1 N2 N3. rewrite (usage_to_gkey_other _ N1 N2). cbn [Z.eqb negb].
    destruct (Z.leb_spec 0xf0 (usage_id hid)), (Z.leb_spec (usage_id hid) 0xff);
      try reflexivity.
    exfalso. apply N3. lia.
Qed.

Lemma input_mapping_by_usage_witness :
  (exists code,
      In code k90_gkey_map /\
      k90_input_mapping k90_gkey_map 0x000700E9 unbound =
      Done 1 (mk_world None [HidMapUsageClear EV_KEY code])) /\
  k90_input_mapping k90_gkey_map 0x000700FF unbound = Done (-1) unbound.
Proof.
  assert (R : 0xD0 <= usage_id 0x000700E9 <= 0xDF \/
              0xE8 <= usage_id 0x000700E9 <= 0xE9)
    by (right; split; discriminate).
  assert (S : 0xF0 <= usage_id 0x000700FF <= 0xFF) by (split; discriminate).
  split.
  - exact (proj1 (input_mapping_by_usage k90_gkey_map 0x000700E9 unbound eq_refl) R).
  - exact (proj1 (proj2 (input_mapping_by_usage k90_gkey_map 0x000700FF unbound
                           eq_refl)) S).
Defined.

Lemma event_switch_outside (u : Z) (d : k90_drvdata) :
  u < 0xF1 \/ 0xFD < u -> k90_event_switch u d = d.
Proof. intros H. switch_case; reflexivity. Qed.

(** X13.  Keys and state reports do not mix: a usage whose input report
    changes the device state is one that input mapping suppressed (-1),
    so it never produced a key event; and the report of a G-key usage
    leaves the device state and the trace as they were. *)
Theorem state_reports_are_not_keys (gkey_map : list Z) (hid value : Z)
    (d : k90_drvdata) (tr : list io_event) (w : world) :
  (k90_event hid value (mk_world (Some d) tr) <> Done 0 (mk_world (Some d) tr) ->
   k90_input_mapping gkey_map hid w = Done (-1) w) /\
  (k90_usage_to_gkey (usage_id hid) <> 0 ->
   k90_event hid value (mk_world (Some d) tr) = Done 0 (mk_world (Some d) tr)).
Proof.
  split.
  - intros H. rewrite event_with_state in H.
    assert (R : 0xF0 <= usage_id hid <= 0xFF).
    { destruct (Z_lt_dec (usage_id hid) 0xF1) as [L | L];
        [exfalso; apply H; rewrite event_switch_outside by (left; exact L);
         reflexivity | ].
      destruct (Z_lt_dec 0xFD (usage_id hid)) as [U | U];
        [exfalso; apply H; rewrite event_switch_outside by (right; exact U);
         reflexivity | ].
      lia. }
    unfold k90_input_mapping.
    unfold K90_USAGE_SPECIAL_MIN, K90_USAGE_SPECIAL_MAX.
    rewrite (gkey_of_special_is_zero _ R). cbn [Z.eqb negb].
    destruct (Z.leb_spec 0xf0 (usage_id hid)), (Z.leb_spec (usage_id hid) 0xff);
      try lia; reflexivity.
  - intros G. rewrite event_with_state.
    rewrite event_switch_outside; [reflexivity | ].
    left. destruct (gkey_nonzero_ranges _ G); lia.
Qed.

Lemma state_reports_are_not_keys_witness :
  k90_input_mapping k90_gkey_map 0xFB unbound = Done (-1) unbound /\
  k90_event 0xD0 1 (mk_world (Some (mk_drvdata 0 1 0 0 0)) []) =
  Done 0 (mk_world (Some (mk_drvdata 0 1 0 0 0)) []).
Proof.
  split.
  - refine (proj1 (state_reports_are_not_keys k90_gkey_map 0xFB 1
                     (mk_drvdata 0 1 0 0 0) [] unbound) _).
    discriminate.
  - refine (proj2 (state_reports_are_not_keys k90_gkey_map 0xD0 1
                     (mk_drvdata 0 1 0 0 0) [] unbound) _).
    discriminate.
Defined.

Lemma usage_id_mod (hid : Z) : usage_id hid = hid mod 2 ^ 16.
Proof.
  unfold usage_id, HID_USAGE. change 0x0000ffff with (Z.ones 16).
  apply Z.land_ones. discriminate.
Qed.

(** X14.  Only the low 16 bits of a usage count: two usages that differ
    in their usage page alone are handled alike by the event callback
    and by input mapping, and the usage code tested always lies in
    0..65535. *)
Theorem usage_page_is_ignored (gkey_map : list Z) (hid hid' value : Z)
    (w : world) :
  hid mod 2 ^ 16 = hid' mod 2 ^ 16 ->
  k90_event hid value w = k90_event hid' value w /\
  k90_input_mapping gkey_map hid w = k90_input_mapping gkey_map hid' w /\
  0 <= usage_id hid < 2 ^ 16.
Proof.
  intros H.
  assert (E : usage_id hid = usage_id hid') by (rewrite !usage_id_mod; exact H).
  unfold k90_event, k90_input_mapping. rewrite E.
  split; [reflexivity | split; [reflexivity | ]].
  rewrite <- E, usage_id_mod. apply Z.mod_pos_bound. reflexivity.
Qed.

Lemma usage_page_is_ignored_witness :
  k90_event 0x000700F6 1 (mk_world (Some (mk_drvdata 0 1 0 0 0)) []) =
  k90_event 0xFFC000F6 1 (mk_world (Some (mk_drvdata 0 1 0 0 0)) []).
Proof.
  exact (proj1 (usage_page_is_ignored k90_gkey_map 0x000700F6 0xFFC000F6 1
                  (mk_world (Some (mk_drvdata 0 1 0 0 0)) []) eq_refl)).
Defined.

(** ** Attach, probe and remove *)

Lemma attach_closed_form (env : attach_env) (w : world) :
  k90_init_special_functions env w =
  Done (attach_code env)
    (mk_world (attach_slot env (w_drvdata w)) (w_trace w ++ attach_requests env)).
Proof.
  unfold k90_init_special_functions, attach_code, attach_slot, attach_requests,
    attach_seed.
  destruct w as [p tr]. cbn [w_drvdata w_trace].
  destruct (bInterfaceNumber env =? 0);
    [ | run_kernel; rewrite app_nil_r; reflexivity].
  destruct (kzalloc_ok env); cbn [negb];
    [ | run_kernel; rewrite app_nil_r; reflexivity].
  run_kernel.
  destruct (status_ret env <? 0); run_kernel;
    destruct (Z.eqb_spec (sysfs_ret env) 0) as [G | G]; cbn [negb app];
    run_kernel; try rewrite G; rewrite <- ?app_assoc; reflexivity.
Qed.

(** X15.  Attach never faults.  When it returns 0 the interface has
    state exactly if it is interface 0; when it fails, either the
    allocation failed ([-ENOMEM], nothing asked of the device, nothing
    changed) or creating the attribute group failed (its error is
    returned and the slot is cleared).  On any other interface nothing is
    asked of the device at all. *)
Theorem attach_outcomes (env : attach_env) (w : world) :
  (exists r w', k90_init_special_functions env w = Done r w') /\
  forall r w', k90_init_special_functions env w = Done r w' ->
    (r = 0 -> ((exists d, w_drvdata w' = Some d) <-> bInterfaceNumber env = 0)) /\
    (r <> 0 ->
     bInterfaceNumber env = 0 /\
     ((kzalloc_ok env = false /\ r = - ENOMEM /\ w' = w) \/
      (kzalloc_ok env = true /\ r = sysfs_ret env /\ w_drvdata w' = None))) /\
    (bInterfaceNumber env <> 0 -> w' = mk_world None (w_trace w)).
Proof.
  rewrite attach_closed_form. split; [eexists; eexists; reflexivity | ].
  intros r w' H. apply Done_inj in H as [<- <-].
  unfold attach_code, attach_slot, attach_requests.
  destruct w as [p tr]. cbn [w_drvdata w_trace].
  destruct (Z.eqb_spec (bInterfaceNumber env) 0) as [I | I].
  - destruct (kzalloc_ok env).
    + destruct (Z.eqb_spec (sysfs_ret env) 0) as [G | G].
      * repeat split; try congruence; eexists; reflexivity.
      * repeat split; try congruence.
        right. repeat split.
    + repeat split; try congruence; try discriminate.
      left. rewrite app_nil_r. repeat split.
  - rewrite app_nil_r. repeat split; try congruence.
    intros [d E]. discriminate E.
Qed.

Ltac run_hid :=
  unfold hid_parse, hid_hw_start, hid_hw_stop, hid_err;
  unfold hid_bind, hid_emit, hid_ret;
  cbv beta iota; cbn [h_trace h_drvdata].

Lemma special_attach (env : attach_env) (h : hid_world) :
  special (k90_init_special_functions env) h =
  HidDone (attach_code env)
    (mk_hid_world (attach_slot env (h_drvdata h))
       (h_trace h ++ map Special (attach_requests env))).
Proof. unfold special. rewrite attach_closed_form. reflexivity. Qed.

Lemma count_events_app (p : hid_event -> bool) (l l' : list hid_event) :
  count_events p (l ++ l') = (count_events p l + count_events p l')%nat.
Proof. unfold count_events. rewrite filter_app, length_app. reflexivity. Qed.

Lemma count_events_special (p : hid_event -> bool) (l : list io_event) :
  (forall e, p (Special e) = false) -> count_events p (map Special l) = 0%nat.
Proof.
  intros H. unfold count_events. induction l as [| e l IH]; [reflexivity | ].
  cbn [map filter]. rewrite H. exact IH.
Qed.

Lemma count_group_created (env : attach_env) :
  count_events is_group_created (map Special (attach_requests env)) =
  if (bInterfaceNumber env =? 0) && kzalloc_ok env then 1%nat else 0%nat.
Proof.
  unfold attach_requests.
  destruct (bInterfaceNumber env =? 0); [ | reflexivity].
  destruct (kzalloc_ok env); [ | reflexivity].
  destruct (status_ret env <? 0), (sysfs_ret env =? 0); reflexivity.
Qed.

Lemma count_kfree_attach (env : attach_env) :
  count_events is_kfree (map Special (attach_requests env)) =
  if (bInterfaceNumber env =? 0) && kzalloc_ok env
     && negb (sysfs_ret env =? 0)
  then 1%nat else 0%nat.
Proof.
  unfold attach_requests.
  destruct (bInterfaceNumber env =? 0); [ | reflexivity].
  destruct (kzalloc_ok env); [ | reflexivity].
  destruct (status_ret env <? 0), (sysfs_ret env =? 0); reflexivity.
Qed.

Lemma probe_closed_form (env : probe_env) (h : hid_world) :
  k90_probe env h =
  if negb (hid_parse_ret env =? 0) then
    HidDone (hid_parse_ret env)
      (mk_hid_world (h_drvdata h)
         (h_trace h ++ [HidParse; HidErr parse_failed_format]))
  else if negb (hid_hw_start_ret env =? 0) then
    HidDone (hid_hw_start_ret env)
      (mk_hid_world (h_drvdata h)
         (h_trace h ++ [HidParse; HidHwStart HID_CONNECT_DEFAULT;
                        HidErr hw_start_failed_format]))
  else if negb (attach_code (attach env) =? 0) then
    HidDone (attach_code (attach env))
      (mk_hid_world (attach_slot (attach env) (h_drvdata h))
         (h_trace h ++ [HidParse; HidHwStart HID_CONNECT_DEFAULT] ++
          map Special (attach_requests (attach env)) ++
          [Special (Printk init_failed_format []); HidHwStop]))
  else
    HidDone 0
      (mk_hid_world (attach_slot (attach env) (h_drvdata h))
         (h_trace h ++ [HidParse; HidHwStart HID_CONNECT_DEFAULT] ++
          map Special (attach_requests (attach env)))).
Proof.
  unfold k90_probe. run_hid.
  rewrite (Z.eqb_sym 0 (hid_parse_ret env)).
  destruct (hid_parse_ret env =? 0); cbn [negb]; run_hid;
    [ | rewrite <- app_assoc; reflexivity].
  rewrite (Z.eqb_sym 0 (hid_hw_start_ret env)).
  destruct (hid_hw_start_ret env =? 0); cbn [negb]; run_hid;
    [ | rewrite <- !app_assoc; reflexivity].
  rewrite special_attach. cbn [h_trace h_drvdata].
  rewrite (Z.eqb_sym 0 (attach_code (attach env))).
  destruct (attach_code (attach env) =? 0); cbn [negb]; run_hid.
  - rewrite <- !app_assoc. reflexivity.
  - unfold special, printk, emit. cbn [w_trace w_drvdata map]. run_hid.
    rewrite <- !app_assoc. reflexivity.
Qed.

Lemma HidDone_inj {A : Type} (a b : A) (h h' : hid_world) :
  HidDone a h = HidDone b h' -> a = b /\ h = h'.
Proof. intros H. injection H as -> ->. split; reflexivity. Qed.

Lemma failed_attach_clears_slot (env : attach_env) :
  attach_code env <> 0 -> attach_slot env None = None.
Proof.
  unfold attach_code, attach_slot.
  destruct (bInterfaceNumber env =? 0); [ | reflexivity].
  destruct (kzalloc_ok env); [ | reflexivity].
  destruct (Z.eqb_spec (sysfs_ret env) 0); [contradiction | reflexivity].
Qed.

(** X16.  Probe never faults and returns the code of the first step that
    fails: that of [hid_parse], else that of [hid_hw_start], else that of
    attach ([-ENOMEM], or the error of the attribute group); it returns 0
    exactly when all three succeed. *)
Theorem probe_returns_first_failure (env : probe_env) (h : hid_world) :
  (exists r h', k90_probe env h = HidDone r h') /\
  forall r h', k90_probe env h = HidDone r h' ->
    ((hid_parse_ret env <> 0 /\ r = hid_parse_ret env) \/
     (hid_parse_ret env = 0 /\ hid_hw_start_ret env <> 0 /\
      r = hid_hw_start_ret env) \/
     (hid_parse_ret env = 0 /\ hid_hw_start_ret env = 0 /\
      r = attach_code (attach env))) /\
    (r = 0 <-> hid_parse_ret env = 0 /\ hid_hw_start_ret env = 0 /\
               attach_code (attach env) = 0).
Proof.
  rewrite probe_closed_form.
  destruct (Z.eqb_spec (hid_parse_ret env) 0) as [P | P]; cbn [negb];
    [ destruct (Z.eqb_spec (hid_hw_start_ret env) 0) as [S | S]; cbn [negb];
      [ destruct (Z.eqb_spec (attach_code (attach env)) 0) as [A | A];
        cbn [negb] | ] | ];
    (split; [eexists; eexists; reflexivity | ]);
    intros r h' H; apply HidDone_inj in H as [<- _];
    (split; [ | split; [intros E | intros [E1 [E2 E3]]]]);
    try congruence; try contradiction.
  - right. right. repeat split; congruence.
  - repeat split; assumption.
  - right. right. repeat split; congruence.
  - right. left. repeat split; congruence.
  - left. split; congruence.
Qed.

(** X17.  A probe that fails leaves nothing behind: the driver-data slot
    is NULL, the hardware was stopped exactly if it had been started
    successfully, when [hid_parse] or [hid_hw_start] failed no control
    transfer was started, and the state was freed once exactly if it had
    been allocated. *)
Theorem failed_probe_is_undone (env : probe_env) (r : Z) (h : hid_world) :
  k90_probe env hid_unbound = HidDone r h -> r <> 0 ->
  h_drvdata h = None /\
  count_events is_hw_start (h_trace h) =
    (if hid_parse_ret env =? 0 then 1%nat else 0%nat) /\
  count_events is_hw_stop (h_trace h) =
    (if (hid_parse_ret env =? 0) && (hid_hw_start_ret env =? 0)
     then 1%nat else 0%nat) /\
  (hid_parse_ret env <> 0 \/ hid_hw_start_ret env <> 0 ->
   count_events is_transfer (h_trace h) = 0%nat) /\
  count_events is_kfree (h_trace h) =
    (if (hid_parse_ret env =? 0) && (hid_hw_start_ret env =? 0)
        && kzalloc_ok (attach env)
     then 1%nat else 0%nat).
Proof.
  rewrite probe_closed_form. unfold hid_unbound. cbn [h_drvdata h_trace app].
  destruct (Z.eqb_spec (hid_parse_ret env) 0) as [P | P]; cbn [negb andb];
    [ destruct (Z.eqb_spec (hid_hw_start_ret env) 0) as [S | S]; cbn [negb];
      [ destruct (Z.eqb_spec (attach_code (attach env)) 0) as [A | A];
        cbn [negb] | ] | ];
    intros H R; apply HidDone_inj in H as [<- <-]; cbn [h_drvdata h_trace];
    try contradiction.
  - split; [apply failed_attach_clears_slot, A | ].
    change (HidParse :: HidHwStart HID_CONNECT_DEFAULT ::
              map Special (attach_requests (attach env)) ++
              [Special (Printk init_failed_format []); HidHwStop])
      with ([HidParse; HidHwStart HID_CONNECT_DEFAULT] ++
              map Special (attach_requests (attach env)) ++
              [Special (Printk init_failed_format []); HidHwStop]).
    rewrite !count_events_app, count_kfree_attach.
    rewrite !(count_events_special _ (attach_requests (attach env)))
      by reflexivity.
    split; [reflexivity | split; [reflexivity | split]].
    + intros [N | N]; contradiction.
    + revert A. unfold attach_code.
      destruct (bInterfaceNumber (attach env) =? 0);
        [ | intros A; exfalso; apply A; reflexivity].
      destruct (kzalloc_ok (attach env)); [ | reflexivity].
      intros A. apply Z.eqb_neq in A. rewrite A. reflexivity.
  - repeat split.
  - repeat split.
Qed.

Lemma failed_probe_is_undone_witness :
  count_events is_hw_stop
    [HidParse; HidHwStart HID_CONNECT_DEFAULT; Special status_query;
     Special SysfsCreateGroup; Special Kfree;
     Special (Printk init_failed_format []); HidHwStop] = 1%nat /\
  count_events is_kfree
    [HidParse; HidHwStart HID_CONNECT_DEFAULT; Special status_query;
     Special SysfsCreateGroup; Special Kfree;
     Special (Printk init_failed_format []); HidHwStop] = 1%nat.
Proof.
  assert (N : -12 <> 0) by discriminate.
  pose proof (failed_probe_is_undone
                (mk_probe_env 0 0
                   (mk_attach_env 0 true 8 [0; 0; 0; 0; 2; 0; 0; 1] (-12)))
                (-12)
                (mk_hid_world None
                   [HidParse; HidHwStart HID_CONNECT_DEFAULT;
                    Special status_query; Special SysfsCreateGroup;
                    Special Kfree; Special (Printk init_failed_format []);
                    HidHwStop])
                eq_refl N) as [_ [_ [Stop [_ Free]]]].
  split; [exact Stop | exact Free].
Defined.

Lemma count_events_cons (p : hid_event -> bool) (e : hid_event)
    (l : list hid_event) :
  count_events p (e :: l) =
  ((if p e then 1 else 0) + count_events p l)%nat.
Proof. unfold count_events. cbn [filter]. destruct (p e); reflexivity. Qed.

(** X18.  A probe that succeeds followed by remove is balanced: the
    hardware is started once and stopped once, last of all; on interface
    0 the attribute group is created once and removed once and the state
    is freed once, on any other interface none of the three happens.
    Remove leaves the driver-data slot as it was (it does not clear the
    pointer it has freed). *)
Theorem probe_then_remove_is_balanced (env : probe_env) (h : hid_world) :
  k90_probe env hid_unbound = HidDone 0 h ->
  exists h',
    k90_remove h = HidDone tt h' /\
    h_drvdata h' = h_drvdata h /\
    (exists tr, h_trace h' = tr ++ [HidHwStop]) /\
    count_events is_hw_start (h_trace h') = 1%nat /\
    count_events is_hw_stop (h_trace h') = 1%nat /\
    count_events is_group_created (h_trace h') =
      (if bInterfaceNumber (attach env) =? 0 then 1%nat else 0%nat) /\
    count_events is_group_removed (h_trace h') =
      (if bInterfaceNumber (attach env) =? 0 then 1%nat else 0%nat) /\
    count_events is_kfree (h_trace h') =
      (if bInterfaceNumber (attach env) =? 0 then 1%nat else 0%nat).
Proof.
  rewrite probe_closed_form. unfold hid_unbound. cbn [h_drvdata h_trace app].
  destruct (Z.eqb_spec (hid_parse_ret env) 0) as [P | P]; cbn [negb];
    [ | intros H; apply HidDone_inj in H as [H _]; congruence].
  destruct (Z.eqb_spec (hid_hw_start_ret env) 0) as [S | S]; cbn [negb];
    [ | intros H; apply HidDone_inj in H as [H _]; congruence].
  destruct (Z.eqb_spec (attach_code (attach env)) 0) as [A | A]; cbn [negb];
    [ | intros H; apply HidDone_inj in H as [H _]; congruence].
  intros H. apply HidDone_inj in H as [_ <-].
  unfold k90_remove, k90_cleanup_special_functions. run_hid.
  pose proof (count_group_created (attach env)) as G.
  pose proof (count_kfree_attach (attach env)) as K.
  revert A G K. unfold attach_code, attach_slot.
  destruct (bInterfaceNumber (attach env) =? 0); cbn [andb].
  - destruct (kzalloc_ok (attach env)); [ | discriminate].
    intros A G K. apply Z.eqb_eq in A. rewrite A in K |- *. cbn [negb] in K.
    cbn [andb] in K.
    unfold special, kfree, emit. run_hid. cbn [w_trace w_drvdata map app].
    eexists. split; [reflexivity | ]. cbn [h_drvdata h_trace].
    split; [reflexivity | ].
    split;
      [ exists (HidParse :: HidHwStart HID_CONNECT_DEFAULT ::
                  (map Special (attach_requests (attach env)) ++
                   [SysfsRemoveGroup]) ++ [Special Kfree]);
        reflexivity | ].
    repeat (rewrite count_events_cons || rewrite count_events_app).
    rewrite G, K.
    rewrite !(count_events_special _ (attach_requests (attach env)))
      by reflexivity.
    repeat split.
  - intros _ G K. run_hid.
    eexists. split; [reflexivity | ]. cbn [h_drvdata h_trace].
    split; [reflexivity | ].
    split; [eexists; reflexivity | ].
    repeat (rewrite count_events_cons || rewrite count_events_app).
    rewrite G, K.
    rewrite !(count_events_special _ (attach_requests (attach env)))
      by reflexivity.
    repeat split.
Qed.

Lemma probe_then_remove_is_balanced_witness :
  exists h',
    k90_remove
      (mk_hid_world (Some (mk_drvdata 2 1 0 0 0))
         [HidParse; HidHwStart HID_CONNECT_DEFAULT; Special status_query;
          Special SysfsCreateGroup]) = HidDone tt h' /\
    count_events is_group_removed (h_trace h') = 1%nat.
Proof.
  destruct (probe_then_remove_is_balanced
              (mk_probe_env 0 0
                 (mk_attach_env 0 true 8 [0; 0; 0; 0; 2; 0; 0; 1] 0))
              (mk_hid_world (Some (mk_drvdata 2 1 0 0 0))
                 [HidParse; HidHwStart HID_CONNECT_DEFAULT; Special status_query;
                  Special SysfsCreateGroup])
              eq_refl)
    as [h' [R [_ [_ [_ [_ [_ [G _]]]]]]]].
  exists h'. split; [exact R | exact G].
Defined.

Lemma attach_outcomes_witness :
  ((exists d,
       w_drvdata (mk_world (Some (mk_drvdata 2 1 0 0 0))
                    [status_query; SysfsCreateGroup]) = Some d) <->
   bInterfaceNumber (mk_attach_env 0 true 8 [0; 0; 0; 0; 2; 0; 0; 1] 0) = 0) /\
  (kzalloc_ok (mk_attach_env 0 false 0 [] 0) = false /\
   - ENOMEM = - ENOMEM /\ unbound = unbound \/
   kzalloc_ok (mk_attach_env 0 false 0 [] 0) = true /\
   - ENOMEM = sysfs_ret (mk_attach_env 0 false 0 [] 0) /\
   w_drvdata unbound = None).
Proof.
  assert (N : - ENOMEM <> 0) by discriminate.
  split.
  - exact (proj1 (proj2 (attach_outcomes
                           (mk_attach_env 0 true 8 [0; 0; 0; 0; 2; 0; 0; 1] 0)
                           unbound) 0
                    (mk_world (Some (mk_drvdata 2 1 0 0 0))
                       [status_query; SysfsCreateGroup]) eq_refl) eq_refl).
  - exact (proj2 (proj1 (proj2 (proj2 (attach_outcomes
                                         (mk_attach_env 0 false 0 [] 0) unbound)
                                  (- ENOMEM) unbound eq_refl)) N)).
Defined.

Lemma probe_returns_first_failure_witness :
  (-19 = 0 <->
   hid_parse_ret (mk_probe_env 0 (-19) (mk_attach_env 0 true 0 [] 0)) = 0 /\
   hid_hw_start_ret (mk_probe_env 0 (-19) (mk_attach_env 0 true 0 [] 0)) = 0 /\
   attach_code (attach (mk_probe_env 0 (-19) (mk_attach_env 0 true 0 [] 0))) = 0).
Proof.
  exact (proj2 (proj2 (probe_returns_first_failure
                         (mk_probe_env 0 (-19) (mk_attach_env 0 true 0 [] 0))
                         hid_unbound) (-19)
                  (mk_hid_world None
                     [HidParse; HidHwStart HID_CONNECT_DEFAULT;
                      HidErr hw_start_failed_format]) eq_refl)).
Defined.

(** ** Attributes exist only where state exists *)




Section AbsentState.

Variable kstrtoint : string -> Z -> option Z.




End AbsentState.

